(** * elsapy.elsprofile: author and affiliation profiles

    A shallow embedding of [src/elsapy/elsprofile.py] (classes [ElsProfile],
    [ElsAuthor], [ElsAffil]) and the properties of its specification.

    Conventions of the embedding:
    - Python values that travel through the module (parsed JSON, [None]) are
      the inductive [pyval]; a [dict] is an association list in insertion
      order with unique keys, a [str] is a [string] whose characters are the
      code points 0..255.  Python floats are outside the embedding.
    - A method is a function of the state it can touch (the object and the
      outside world) that returns a [result] and the new state; an exception
      keeps the state reached when it was raised.
    - [print] and [logger] calls write to no state that the module reads back
      and are left out; the arguments they evaluate are kept when evaluating
      them can raise ([len] of the document list).
    - The construction of the tabular view, [recast_df(pd.DataFrame(docs))],
      is done by code outside the module and can raise: which lists it fails
      on, and with which error, is a component of the world
      ([frame_error]). *)

From Stdlib Require Import ZArith List String Ascii Lia Bool.
From stdpp Require Import base option list gmap strings.

Open Scope string_scope.
Open Scope list_scope.
Open Scope stdpp_scope.

(* ===================================================================== *)
(** ** Python values *)
(* ===================================================================== *)

#[local] Set Warnings "-register-all".

Inductive pyval : Type :=
| PNone
| PBool (b : bool)
| PInt (z : Z)
| PStr (s : string)
| PList (l : list pyval)
| PDict (d : list (string * pyval)).

(** [bool(v)]: the test of [if v:] and [not v]. *)
Definition truthy (v : pyval) : bool :=
  match v with
  | PNone => false
  | PBool b => b
  | PInt z => negb (z =? 0)%Z
  | PStr s => negb (String.eqb s "")
  | PList l => match l with [] => false | _ => true end
  | PDict d => match d with [] => false | _ => true end
  end.

(** Exceptions that the module raises or lets through. [HTTPError] and
    [RequestException] are those of the [requests] library, the two named in
    the [except] clauses. *)
Inductive exn : Type :=
| ValueError (msg : string)
| KeyError (key : string)
| IndexError
| TypeError
| AttributeError
| HTTPError
| RequestException.

Inductive result (A : Type) : Type :=
| Return (a : A)
| Raise (e : exn).
Arguments Return {A} a.
Arguments Raise {A} e.

(** [except (requests.HTTPError, requests.RequestException)] *)
Definition is_transport (e : exn) : bool :=
  match e with
  | HTTPError | RequestException => true
  | _ => false
  end.

(** *** Dictionaries *)

Fixpoint dict_get (k : string) (d : list (string * pyval)) : option pyval :=
  match d with
  | [] => None
  | (k', v) :: r => if String.eqb k k' then Some v else dict_get k r
  end.

(** [d[k] = v]: an existing key keeps its place, a new one goes last. *)
Fixpoint dict_set (k : string) (v : pyval) (d : list (string * pyval))
  : list (string * pyval) :=
  match d with
  | [] => [(k, v)]
  | (k', v') :: r =>
      if String.eqb k k' then (k, v) :: r else (k', v') :: dict_set k v r
  end.

(** [o.get(k, default)] *)
Definition py_get (o : pyval) (k : string) (default : pyval) : result pyval :=
  match o with
  | PDict d => Return (match dict_get k d with Some v => v | None => default end)
  | _ => Raise AttributeError
  end.

(** [o[k]] for a string key [k] *)
Definition py_getitem_key (o : pyval) (k : string) : result pyval :=
  match o with
  | PDict d => match dict_get k d with
               | Some v => Return v
               | None => Raise (KeyError k)
               end
  | _ => Raise TypeError
  end.

(** [o[k] = v] for a string key [k] *)
Definition py_setitem_key (o : pyval) (k : string) (v : pyval) : result pyval :=
  match o with
  | PDict d => Return (PDict (dict_set k v d))
  | _ => Raise TypeError
  end.

(** Decimal rendering of an integer, [str(z)]. *)
Definition digit_char (d : Z) : ascii :=
  ascii_of_nat (48 + Z.to_nat d).

Fixpoint digits_of (fuel : nat) (n : Z) : string :=
  match fuel with
  | O => String (digit_char n) ""
  | S f => if (n <? 10)%Z then String (digit_char n) ""
           else digits_of f (n / 10)%Z +:+ String (digit_char (n mod 10)%Z) ""
  end.

Definition str_of_Z (z : Z) : string :=
  if (z <? 0)%Z
  then String "-" (digits_of (Z.to_nat (Z.log2 (- z))) (- z)%Z)
  else digits_of (Z.to_nat (Z.log2 z)) z.

(** [o[i]] for an integer index [0 <= i] *)
Definition py_getitem_idx (o : pyval) (i : nat) : result pyval :=
  match o with
  | PList l => match nth_error l i with
               | Some v => Return v
               | None => Raise IndexError
               end
  | PStr s => match String.get i s with
              | Some c => Return (PStr (String c ""))
              | None => Raise IndexError
              end
  | PDict d => Raise (KeyError (str_of_Z (Z.of_nat i)))
  | _ => Raise TypeError
  end.

(** [len(o)] *)
Definition py_len (o : pyval) : result nat :=
  match o with
  | PList l => Return (length l)
  | PStr s => Return (String.length s)
  | PDict d => Return (length d)
  | _ => Raise TypeError
  end.

(** [a + b]: text with text, list with list, numbers (a boolean counts as
    0 or 1); anything else is a type error. *)
Definition py_add (a b : pyval) : result pyval :=
  match a, b with
  | PStr x, PStr y => Return (PStr (x +:+ y))
  | PList x, PList y => Return (PList (x ++ y))
  | PInt x, PInt y => Return (PInt (x + y))
  | PInt x, PBool y => Return (PInt (x + (if y then 1 else 0)))
  | PBool x, PInt y => Return (PInt ((if x then 1 else 0) + y))
  | PBool x, PBool y =>
      Return (PInt ((if x then 1 else 0) + (if y then 1 else 0)))
  | _, _ => Raise TypeError
  end.

(** [c in s] *)
Fixpoint has_char (c : ascii) (s : string) : bool :=
  match s with
  | "" => false
  | String x r => Ascii.eqb x c || has_char c r
  end.

(** [s.split(sep)] for a one-character separator *)
Fixpoint split_on (sep : ascii) (s : string) : list string :=
  match s with
  | "" => [""]
  | String c r =>
      if Ascii.eqb c sep then "" :: split_on sep r
      else match split_on sep r with
           | h :: t => String c h :: t
           | [] => [String c ""]
           end
  end.


Definition dquote : ascii := "034"%char.

Definition hex_lower (n : nat) : ascii :=
  if (n <? 10)%nat then ascii_of_nat (48 + n) else ascii_of_nat (87 + n).

(** [repr(s)] of a string: in single quotes, or in double quotes when the
    string holds a single quote and no double quote; the quote and the
    backslash escaped, tab, newline and carriage return by their letters, any
    other character that is not printable as [\xNN]. *)
Definition is_printable (c : ascii) : bool :=
  let n := nat_of_ascii c in
  ((32 <=? n)%nat && (n <=? 126)%nat)
  || ((161 <=? n)%nat && (n <=? 172)%nat)
  || (174 <=? n)%nat.

Definition repr_char (quote c : ascii) : string :=
  let n := nat_of_ascii c in
  if Ascii.eqb c quote || Ascii.eqb c "\" then String "\" (String c "")
  else if (n =? 9)%nat then "\t"
  else if (n =? 10)%nat then "\n"
  else if (n =? 13)%nat then "\r"
  else if is_printable c then String c ""
  else "\x" +:+ String (hex_lower (n / 16)) (String (hex_lower (n mod 16)) "").

Fixpoint repr_body (quote : ascii) (s : string) : string :=
  match s with
  | "" => String quote ""
  | String c r => repr_char quote c +:+ repr_body quote r
  end.

Definition py_repr (s : string) : string :=
  let quote := if has_char "'" s && negb (has_char dquote s)
               then dquote else "'"%char in
  String quote (repr_body quote s).

(** The message of the [ValueError] of [int] on a string: the text of the
    string as [repr] gives it, cut after 200 characters. *)
Definition invalid_literal (s : string) : exn :=
  ValueError ("invalid literal for int() with base 10: "
              +:+ String.substring 0 200 (py_repr s)).

(** [int(v)] in base 10. In a string, blanks around the number, a sign and
    single underscores between digits are accepted. *)
Definition is_digit (c : ascii) : bool :=
  (48 <=? nat_of_ascii c)%nat && (nat_of_ascii c <=? 57)%nat.

Definition digit_val (c : ascii) : Z := Z.of_nat (nat_of_ascii c - 48).

(** The blanks that [int] skips around a number: tab to carriage return and
    the space, and of the characters above 127 the next-line and the
    no-break space. The separators 28 to 31 are no blanks for [int]. *)
Definition is_space (c : ascii) : bool :=
  let n := nat_of_ascii c in
  ((9 <=? n)%nat && (n <=? 13)%nat) || (n =? 32)%nat
  || (n =? 133)%nat || (n =? 160)%nat.

Fixpoint lstrip (s : string) : string :=
  match s with
  | String c r => if is_space c then lstrip r else s
  | "" => ""
  end.

Fixpoint int_digits (acc : Z) (s : string) : Z * string :=
  match s with
  | String c r =>
      if is_digit c then int_digits (acc * 10 + digit_val c)%Z r
      else if Ascii.eqb c "_" then
        match r with
        | String c' r' =>
            if is_digit c' then int_digits (acc * 10 + digit_val c')%Z r'
            else (acc, s)
        | "" => (acc, s)
        end
      else (acc, s)
  | "" => (acc, "")
  end.

Definition int_unsigned (s : string) : option Z :=
  match s with
  | String c r =>
      if is_digit c then
        let '(z, rest) := int_digits (digit_val c) r in
        match lstrip rest with
        | "" => Some z
        | _ => None
        end
      else None
  | "" => None
  end.

Definition int_of_str (s : string) : option Z :=
  match lstrip s with
  | String "-" r => option_map Z.opp (int_unsigned r)
  | String "+" r => int_unsigned r
  | t => int_unsigned t
  end.

Definition py_int (v : pyval) : result Z :=
  match v with
  | PInt z => Return z
  | PBool b => Return (if b then 1 else 0)%Z
  | PStr s => match int_of_str s with
              | Some z => Return z
              | None => Raise (invalid_literal s)
              end
  | _ => Raise TypeError
  end.

(* ===================================================================== *)
(** ** Library functions the module calls: [json.dumps], [quote_plus] *)
(* ===================================================================== *)

Definition hex_upper (n : nat) : ascii :=
  if (n <? 10)%nat then ascii_of_nat (48 + n) else ascii_of_nat (55 + n).

(** One character of a string as [json.dumps] writes it with its default
    [ensure_ascii=True]: short escapes, [\u00xx] outside the printable ASCII
    range. *)
Definition escape_char (c : ascii) : string :=
  let n := nat_of_ascii c in
  if Ascii.eqb c dquote then String "\" (String dquote "")
  else if Ascii.eqb c "\" then "\\"
  else if Ascii.eqb c "010" then "\n"
  else if Ascii.eqb c "013" then "\r"
  else if Ascii.eqb c "009" then "\t"
  else if Ascii.eqb c "008" then "\b"
  else if Ascii.eqb c "012" then "\f"
  else if (n <? 32)%nat || (126 <? n)%nat then
    "\u00" +:+ String (hex_lower (n / 16)) (String (hex_lower (n mod 16)) "")
  else String c "".

Fixpoint escape_str (s : string) : string :=
  match s with
  | "" => ""
  | String c r => escape_char c +:+ escape_str r
  end.

Definition dumps_str (s : string) : string :=
  String dquote (escape_str s +:+ String dquote "").

(** [json.dumps(v)] with the default separators [", "] and [": "]. *)
Fixpoint json_dumps (v : pyval) : string :=
  match v with
  | PNone => "null"
  | PBool true => "true"
  | PBool false => "false"
  | PInt z => str_of_Z z
  | PStr s => dumps_str s
  | PList l =>
      "[" +:+
      (fix items (l : list pyval) : string :=
         match l with
         | [] => ""
         | x :: r =>
             json_dumps x +:+
             match r with [] => "" | _ => ", " +:+ items r end
         end) l
      +:+ "]"
  | PDict d =>
      "{" +:+
      (fix members (d : list (string * pyval)) : string :=
         match d with
         | [] => ""
         | (k, x) :: r =>
             dumps_str k +:+ ": " +:+ json_dumps x +:+
             match r with [] => "" | _ => ", " +:+ members r end
         end) d
      +:+ "}"
  end.

(** [urllib.parse.quote_plus(s)]: letters, digits and [_.-~] stay, a blank
    becomes [+], every other byte of the UTF-8 encoding becomes [%XX]. *)
Definition always_safe (c : ascii) : bool :=
  let n := nat_of_ascii c in
  ((48 <=? n)%nat && (n <=? 57)%nat) || ((65 <=? n)%nat && (n <=? 90)%nat)
  || ((97 <=? n)%nat && (n <=? 122)%nat)
  || Ascii.eqb c "_" || Ascii.eqb c "." || Ascii.eqb c "-" || Ascii.eqb c "~".

Definition percent (b : nat) : string :=
  String "%" (String (hex_upper (b / 16)) (String (hex_upper (b mod 16)) "")).

Definition quote_char (c : ascii) : string :=
  let n := nat_of_ascii c in
  if always_safe c then String c ""
  else if Ascii.eqb c " " then "+"
  else if (n <? 128)%nat then percent n
  else percent (192 + n / 64) +:+ percent (128 + n mod 64).

Fixpoint quote_plus (s : string) : string :=
  match s with
  | "" => ""
  | String c r => quote_char c +:+ quote_plus r
  end.

(* ===================================================================== *)
(** ** Reading JSON text back *)
(* ===================================================================== *)

(** A reader of JSON text for the values of the embedding, as [json.loads]
    reads them: blanks between tokens, the escapes of strings, integers; in
    an object a repeated key keeps its first place and its last value. Text
    that denotes a value outside the embedding (a float, a code point above
    255) is not read. *)
Definition is_ws (c : ascii) : bool :=
  Ascii.eqb c " " || Ascii.eqb c "009" || Ascii.eqb c "010" || Ascii.eqb c "013".

Fixpoint skip_ws (s : string) : string :=
  match s with
  | String c r => if is_ws c then skip_ws r else s
  | "" => ""
  end.

Definition hex_val (c : ascii) : option nat :=
  let n := nat_of_ascii c in
  if (48 <=? n)%nat && (n <=? 57)%nat then Some (n - 48)
  else if (97 <=? n)%nat && (n <=? 102)%nat then Some (n - 87)
  else if (65 <=? n)%nat && (n <=? 70)%nat then Some (n - 55)
  else None.

Definition hex4 (a b c d : ascii) : option nat :=
  match hex_val a, hex_val b, hex_val c, hex_val d with
  | Some x, Some y, Some z, Some t => Some (((x * 16 + y) * 16 + z) * 16 + t)
  | _, _, _, _ => None
  end.

Definition unescape (e : ascii) : option ascii :=
  if Ascii.eqb e dquote then Some dquote
  else match e with
       | "\"%char => Some "\"%char
       | "/"%char => Some "/"%char
       | "b"%char => Some "008"%char
       | "f"%char => Some "012"%char
       | "n"%char => Some "010"%char
       | "r"%char => Some "013"%char
       | "t"%char => Some "009"%char
       | _ => None
       end.

Definition push (c : ascii) (r : option (string * string))
  : option (string * string) :=
  match r with
  | Some (t, rest) => Some (String c t, rest)
  | None => None
  end.

(** The text after an opening quote: the string read and what follows its
    closing quote. *)
Fixpoint parse_str (s : string) : option (string * string) :=
  match s with
  | "" => None
  | String c r =>
      if Ascii.eqb c dquote then Some ("", r)
      else if Ascii.eqb c "\" then
        match r with
        | String e r' =>
            if Ascii.eqb e "u" then
              match r' with
              | String h1 (String h2 (String h3 (String h4 r''))) =>
                  match hex4 h1 h2 h3 h4 with
                  | Some n => if (n <? 256)%nat then push (ascii_of_nat n) (parse_str r'')
                              else None
                  | None => None
                  end
              | _ => None
              end
            else match unescape e with
                 | Some x => push x (parse_str r')
                 | None => None
                 end
        | "" => None
        end
      else if (nat_of_ascii c <? 32)%nat then None
      else push c (parse_str r)
  end.

Fixpoint parse_digits (acc : Z) (s : string) : Z * string :=
  match s with
  | String c r =>
      if is_digit c then parse_digits (acc * 10 + digit_val c)%Z r else (acc, s)
  | "" => (acc, "")
  end.

(** [0] or a digit other than [0] followed by digits *)
Definition parse_nat_lit (s : string) : option (Z * string) :=
  match s with
  | String c r =>
      if Ascii.eqb c "0" then Some (0%Z, r)
      else if is_digit c then Some (parse_digits (digit_val c) r)
      else None
  | "" => None
  end.

Definition starts_fraction (s : string) : bool :=
  match s with
  | String c _ => Ascii.eqb c "." || Ascii.eqb c "e" || Ascii.eqb c "E"
  | "" => false
  end.

Definition parse_number (s : string) : option (pyval * string) :=
  let r := match s with
           | String "-" t =>
               match parse_nat_lit t with
               | Some (z, rest) => Some ((- z)%Z, rest)
               | None => None
               end
           | _ => parse_nat_lit s
           end in
  match r with
  | Some (z, rest) => if starts_fraction rest then None else Some (PInt z, rest)
  | None => None
  end.

Fixpoint strip_prefix (lit s : string) : option string :=
  match lit, s with
  | "", _ => Some s
  | String a l, String b r => if Ascii.eqb a b then strip_prefix l r else None
  | _, _ => None
  end.

Definition expect (lit : string) (v : pyval) (s : string)
  : option (pyval * string) :=
  match strip_prefix lit s with
  | Some rest => Some (v, rest)
  | None => None
  end.

Definition dict_of_pairs (kvs : list (string * pyval)) : list (string * pyval) :=
  fold_left (fun d kv => dict_set (fst kv) (snd kv) d) kvs [].

(** The text begins, after blanks, with the character [c]: what follows
    it. *)
Definition closes (c : ascii) (s : string) : option string :=
  match skip_ws s with
  | String x r => if Ascii.eqb x c then Some r else None
  | "" => None
  end.

Fixpoint parse_value (fuel : nat) (s : string) : option (pyval * string) :=
  match fuel with
  | O => None
  | S f =>
      match skip_ws s with
      | "" => None
      | String c r =>
          if Ascii.eqb c dquote then
            match parse_str r with
            | Some (t, rest) => Some (PStr t, rest)
            | None => None
            end
          else if Ascii.eqb c "[" then
            match closes "]" r with
            | Some rest => Some (PList [], rest)
            | None => match parse_elems f r with
                      | Some (vs, rest) => Some (PList vs, rest)
                      | None => None
                      end
            end
          else if Ascii.eqb c "{" then
            match closes "}" r with
            | Some rest => Some (PDict [], rest)
            | None => match parse_members f r with
                      | Some (kvs, rest) => Some (PDict (dict_of_pairs kvs), rest)
                      | None => None
                      end
            end
          else if Ascii.eqb c "n" then expect "null" PNone (String c r)
          else if Ascii.eqb c "t" then expect "true" (PBool true) (String c r)
          else if Ascii.eqb c "f" then expect "false" (PBool false) (String c r)
          else parse_number (String c r)
      end
  end

with parse_elems (fuel : nat) (s : string) : option (list pyval * string) :=
  match fuel with
  | O => None
  | S f =>
      match parse_value f s with
      | Some (v, r) =>
          match skip_ws r with
          | String c r' =>
              if Ascii.eqb c "," then
                match parse_elems f r' with
                | Some (vs, rest) => Some (v :: vs, rest)
                | None => None
                end
              else if Ascii.eqb c "]" then Some ([v], r')
              else None
          | "" => None
          end
      | None => None
      end
  end

with parse_members (fuel : nat) (s : string)
  : option (list (string * pyval) * string) :=
  match fuel with
  | O => None
  | S f =>
      match closes dquote s with
      | Some r =>
          match parse_str r with
          | Some (k, r1) =>
              match closes ":" r1 with
              | Some r2 =>
                  match parse_value f r2 with
                  | Some (v, r3) =>
                      match skip_ws r3 with
                      | String c r4 =>
                          if Ascii.eqb c "," then
                            match parse_members f r4 with
                            | Some (kvs, rest) => Some ((k, v) :: kvs, rest)
                            | None => None
                            end
                          else if Ascii.eqb c "}" then Some ([(k, v)], r4)
                          else None
                      | "" => None
                      end
                  | None => None
                  end
              | None => None
              end
          | None => None
          end
      | None => None
      end
  end.

(** [json.loads(s)]: one value, blanks around it, nothing else. *)
Definition json_loads (s : string) : option pyval :=
  match parse_value (S (String.length s)) s with
  | Some (v, rest) => match skip_ws rest with
                      | "" => Some v
                      | _ => None
                      end
  | None => None
  end.

(* ===================================================================== *)
(** ** State and exceptions *)
(* ===================================================================== *)

Definition M (S A : Type) : Type := S -> result A * S.

Definition ret {S A} (a : A) : M S A := fun s => (Return a, s).
Definition raise {S A} (e : exn) : M S A := fun s => (Raise e, s).
Definition bind {S A B} (m : M S A) (f : A -> M S B) : M S B :=
  fun s => match m s with
           | (Return a, s') => f a s'
           | (Raise e, s') => (Raise e, s')
           end.
Definition lift {S A} (r : result A) : M S A := fun s => (r, s).
Definition get_state {S} : M S S := fun s => (Return s, s).
Definition put_state {S} (s : S) : M S unit := fun _ => (Return tt, s).

(** [try: body  except <catches> as e: handler e] *)
Definition try_except {S A} (body : M S A) (catches : exn -> bool)
    (handler : exn -> M S A) : M S A :=
  fun s => match body s with
           | (Raise e, s') => if catches e then handler e s' else (Raise e, s')
           | r => r
           end.

Notation "'let*' x ':=' m 'in' k" := (bind m (fun x => k))
  (at level 10, x name, m at level 100, k at level 200).
Notation "m ';;' k" := (bind m (fun _ => k))
  (at level 100, k at level 200, right associativity).

(* ===================================================================== *)
(** ** The outside world: API client, network, files, pandas *)
(* ===================================================================== *)

(** The API client collaborator: [exec_request(url)] returns the parsed JSON
    document or raises. What a client answers may depend on the requests made
    before. *)
Record ElsClient : Type := mkClient {
  respond : list string -> string -> result pyval
}.

(** [frame_error] stands for the two functions that build the tabular view
    of a document list, [pandas.DataFrame] and [utils.recast_df], neither of
    which is part of the module: it tells which error, if any, they raise on a
    given list. *)
Record World : Type := mkWorld {
  requests : list string;            (* the GET requests issued, oldest first *)
  files : gmap string string;        (* path |-> content *)
  frame_error : pyval -> option exn  (* what building a frame raises *)
}.

Definition exec_request (c : ElsClient) (url : string) : M World pyval :=
  fun w => (respond c (requests w) url,
            mkWorld (requests w ++ [url]) (files w) (frame_error w)).

(** [open(path, mode='w')]: the file is created, or emptied. The directory
    [data/] is taken to exist, as the module requires of its caller. *)
Definition fs_open_w (path : string) : M World unit :=
  fun w => (Return tt,
            mkWorld (requests w) (<[path := ""]> (files w)) (frame_error w)).

(** [f.write(text)] on the file opened at [path] *)
Definition fs_write (path text : string) : M World unit :=
  fun w => (Return tt,
            mkWorld (requests w)
                    (<[path := default "" (files w !! path) +:+ text]> (files w))
                    (frame_error w)).

(** [for i in l: body i] *)
Fixpoint for_each {S} (l : list nat) (body : nat -> M S unit) : M S unit :=
  match l with
  | [] => ret tt
  | i :: r => body i ;; for_each r body
  end.

(** [sep.join(l)] *)
Fixpoint join (sep : string) (l : list string) : string :=
  match l with
  | [] => ""
  | [x] => x
  | x :: r => x +:+ sep +:+ join sep r
  end.

(* ===================================================================== *)
(** ** Entities and profiles *)
(* ===================================================================== *)

(** Modelled from the spec: the fields of the generic entity base class
    [ElsEntity] of module [elsentity], which is not among the sources: "holds
    a URI, an optional bound client, a generic JSON payload ([data])". *)
Record Entity : Type := mkEntity {
  _uri : string;
  _client : option ElsClient;
  _data : pyval
}.

(** The tabular view of the document list, [recast_df(pd.DataFrame(docs))]:
    pandas and [utils.recast_df] are not part of the module; a view that was
    built is kept as the symbolic projection of the list it was built from. *)
Inductive Frame : Type :=
| recast_df_DataFrame (docs : pyval).

(** [recast_df(pd.DataFrame(docs))]: the view, or the error that pandas or
    [recast_df] raises on this list. *)
Definition build_frame (docs : pyval) : M World Frame :=
  fun w => (match frame_error w docs with
            | Some e => Raise e
            | None => Return (recast_df_DataFrame docs)
            end, w).

Record Profile : Type := mkProfile {
  entity : Entity;
  _doc_list : pyval;
  docsframe : option Frame           (* no attribute before the first fetch *)
}.

Definition uri (p : Profile) : string := _uri (entity p).
Definition client (p : Profile) : option ElsClient := _client (entity p).
Definition data (p : Profile) : pyval := _data (entity p).
Definition doc_list (p : Profile) : pyval := _doc_list p.

Definition set_client (c : option ElsClient) (p : Profile) : Profile :=
  mkProfile (mkEntity (uri p) c (data p)) (_doc_list p) (docsframe p).
Definition set_data (d : pyval) (p : Profile) : Profile :=
  mkProfile (mkEntity (uri p) (client p) d) (_doc_list p) (docsframe p).
Definition set_doc_list (l : pyval) (p : Profile) : Profile :=
  mkProfile (entity p) l (docsframe p).
Definition set_docsframe (f : Frame) (p : Profile) : Profile :=
  mkProfile (entity p) (_doc_list p) (Some f).

(** A method runs on the object and the world. *)
Definition St : Type := Profile * World.

Definition self : M St Profile := fun s => (Return (fst s), s).
Definition update_self (f : Profile -> Profile) : M St unit :=
  fun s => (Return tt, (f (fst s), snd s)).
Definition in_world {A} (m : M World A) : M St A :=
  fun s => let '(r, w) := m (snd s) in (r, (fst s, w)).

Definition binding_error : exn :=
  ValueError "Entity object not currently bound to els_client instance.".

Module ElsEntity.

(** Modelled from the spec: the constructor of the missing base class; an
    entity is created with its URI, unbound and with no payload. *)
Definition __init__ (uri : string) : Entity := mkEntity uri None PNone.

(** Modelled from the spec: the generic [read] of the missing base class,
    "a generic read() that performs a GET against the URI and stores the
    parsed payload": it needs a bound client (binding error), replaces
    [data] wholesale by the payload filed under the payload-type tag, and
    turns a transport error into the result false. *)
Definition read (payloadType : string) (els_client : option ElsClient)
  : M (Entity * World) bool :=
  let* s := get_state in
  let e := fst s in
  let* c := match els_client, _client e with
            | Some c, _ => ret c
            | None, Some c => ret c
            | None, None => raise binding_error
            end in
  put_state (mkEntity (_uri e) (Some c) (_data e), snd s) ;;
  try_except
    (fun s' =>
       let '(r, w') := exec_request c (_uri e) (snd s') in
       match r with
       | Return api_response =>
           match py_getitem_key api_response payloadType with
           | Return payload =>
               (Return true,
                (mkEntity (_uri e) (Some c) payload, w'))
           | Raise x => (Raise x, (fst s', w'))
           end
       | Raise x => (Raise x, (fst s', w'))
       end)
    is_transport
    (fun _ => ret false).

End ElsEntity.

Module ElsProfile.

Definition __init__ (uri : string) : Profile :=
  mkProfile (ElsEntity.__init__ uri) PNone None.

(** Inherited from the entity base class: it runs on the entity part of
    the object. *)
Definition read (payloadType : string) (els_client : option ElsClient)
  : M St bool :=
  fun s =>
    let '(r, (e', w')) :=
      ElsEntity.read payloadType els_client (entity (fst s), snd s) in
    (r, (mkProfile e' (_doc_list (fst s)) (docsframe (fst s)), w')).

Definition search_url (uri : string) : string :=
  "http://api.elsevier.com/content/search/scopus?query=au-id("
  +:+ List.last (split_on "/" uri) "" +:+ ")&view=COMPLETE".

Definition read_docs (payloadType : string) (els_client : option ElsClient)
  : M St bool :=
  (match els_client with
   | Some c => update_self (set_client (Some c))
   | None =>
       let* p := self in
       match client p with
       | None => raise binding_error
       | Some _ => ret tt
       end
   end) ;;
  try_except
    (let* p := self in
     let search_url := search_url (uri p) in
     let* c := match client p with
               | Some c => ret c
               | None => raise AttributeError
               end in
     let* api_response := in_world (exec_request c search_url) in
     let* results := lift (py_get api_response "search-results" (PDict [])) in
     let* entry := lift (py_get results "entry" (PList [])) in
     update_self (set_doc_list entry) ;;
     let* p := self in
     let* _n := lift (py_len (_doc_list p)) in
     let* frame := in_world (build_frame (_doc_list p)) in
     update_self (set_docsframe frame) ;;
     ret true)
    is_transport
    (fun _ => ret false).

Definition dump_path (uri : string) : string :=
  "data/" +:+ quote_plus (uri +:+ "?view=documents") +:+ ".json".

Definition write_docs : M St bool :=
  let* p := self in
  if truthy (doc_list p) then
    let dump_file := dump_path (uri p) in
    in_world (fs_open_w dump_file) ;;
    let* d0 := lift (py_getitem_idx (doc_list p) 0) in
    in_world (fs_write dump_file ("[" +:+ json_dumps d0)) ;;
    let* n := lift (py_len (doc_list p)) in
    for_each (seq 1 (n - 1))
      (fun i =>
         let* p := self in
         let* d := lift (py_getitem_idx (doc_list p) i) in
         in_world (fs_write dump_file ("," +:+ json_dumps d))) ;;
    in_world (fs_write dump_file "]") ;;
    ret true
  else
    ret false.

End ElsProfile.

(** A Scopus identifier given to a constructor: a string or a number. *)
Inductive ident : Type :=
| IdStr (s : string)
| IdInt (z : Z).

(** [bool(id)] *)
Definition ident_truthy (i : ident) : bool :=
  match i with
  | IdStr s => negb (String.eqb s "")
  | IdInt z => negb (z =? 0)%Z
  end.

(** [str(id)] *)
Definition str (i : ident) : string :=
  match i with
  | IdStr s => s
  | IdInt z => str_of_Z z
  end.

(** [bool(s)] of a string *)
Definition str_truthy (s : string) : bool := negb (String.eqb s "").

Module ElsAuthor.

Definition _payload_type : string := "author-retrieval-response".
Definition _uri_base : string :=
  "https://api.elsevier.com/content/author/author_id/".

Definition __init__ (uri : string) (author_id : ident) : result Profile :=
  if str_truthy uri && negb (ident_truthy author_id) then
    Return (ElsProfile.__init__ uri)
  else if ident_truthy author_id && negb (str_truthy uri) then
    Return (ElsProfile.__init__ (_uri_base +:+ str author_id))
  else if negb (str_truthy uri) && negb (ident_truthy author_id) then
    Raise (ValueError "No URI or author ID specified")
  else
    Raise (ValueError "Both URI and author ID specified; just need one.").

(** [self.data['author-profile']['preferred-name'][k]] *)
Definition preferred_name (p : Profile) (k : string) : result pyval :=
  match py_getitem_key (data p) "author-profile" with
  | Return profile =>
      match py_getitem_key profile "preferred-name" with
      | Return name => py_getitem_key name k
      | Raise e => Raise e
      end
  | Raise e => Raise e
  end.

Definition first_name (p : Profile) : result pyval :=
  preferred_name p "given-name".

Definition last_name (p : Profile) : result pyval :=
  preferred_name p "surname".

(** [self.first_name + " " + self.last_name]: the first sum is taken before
    the last name is looked up. *)
Definition full_name (p : Profile) : result pyval :=
  match first_name p with
  | Return first =>
      match py_add first (PStr " ") with
      | Return spaced =>
          match last_name p with
          | Return surname => py_add spaced surname
          | Raise e => Raise e
          end
      | Raise e => Raise e
      end
  | Raise e => Raise e
  end.

Definition read (els_client : option ElsClient) : M St bool :=
  let* ok := ElsProfile.read _payload_type els_client in
  if ok then ret true else ret false.

Definition read_docs (els_client : option ElsClient) : M St bool :=
  ElsProfile.read_docs _payload_type els_client.

Definition fields : list string :=
  ["document-count"; "cited-by-count"; "citation-count"; "h-index";
   "dc:identifier"].

(** [self._data['coredata'][k] = v] *)
Definition set_coredata (k : string) (v : pyval) : M St unit :=
  let* p := self in
  let* coredata := lift (py_getitem_key (_data (entity p)) "coredata") in
  let* coredata' := lift (py_setitem_key coredata k v) in
  let* data' := lift (py_setitem_key (_data (entity p)) "coredata" coredata') in
  update_self (set_data data').

(** [self._data[k] = v] *)
Definition set_toplevel (k : string) (v : pyval) : M St unit :=
  let* p := self in
  let* data' := lift (py_setitem_key (_data (entity p)) k v) in
  update_self (set_data data').

(** [data['coredata'][k]] *)
Definition coredata_of (payload : pyval) (k : string) : result pyval :=
  match py_getitem_key payload "coredata" with
  | Return c => py_getitem_key c k
  | Raise e => Raise e
  end.

(** [int(r)] of an expression that may have raised *)
Definition int_of (r : result pyval) : result pyval :=
  match r with
  | Return v => match py_int v with
                | Return z => Return (PInt z)
                | Raise e => Raise e
                end
  | Raise e => Raise e
  end.

(** The [try] block ends without a [return]: [None] is falling through to
    the [return True] that follows it. *)
Definition read_metrics (els_client : option ElsClient) : M St bool :=
  let* returned :=
    try_except
      (let* p := self in
       let* c := match els_client with
                 | Some c => ret c
                 | None => raise AttributeError
                 end in
       let* api_response :=
         in_world (exec_request c (uri p +:+ "?field=" +:+ join "," fields)) in
       let* payload := lift (py_getitem_key api_response _payload_type) in
       let* data' := lift (py_getitem_idx payload 0) in
       (if negb (truthy (data p)) then
          update_self (set_data (PDict [])) ;;
          set_toplevel "coredata" (PDict [])
        else ret tt) ;;
       let* v := lift (coredata_of data' "dc:identifier") in
       set_coredata "dc:identifier" v ;;
       let* v := lift (int_of (coredata_of data' "citation-count")) in
       set_coredata "citation-count" v ;;
       let* v := lift (int_of (coredata_of data' "citation-count")) in
       set_coredata "cited-by-count" v ;;
       let* v := lift (int_of (coredata_of data' "document-count")) in
       set_coredata "document-count" v ;;
       let* v := lift (int_of (py_getitem_key data' "h-index")) in
       set_toplevel "h-index" v ;;
       ret None)
      is_transport
      (fun _ => ret (Some false)) in
  match returned with
  | Some b => ret b
  | None => ret true
  end.

End ElsAuthor.

Module ElsAffil.

Definition _payload_type : string := "affiliation-retrieval-response".
Definition _uri_base : string :=
  "https://api.elsevier.com/content/affiliation/affiliation_id/".

Definition __init__ (uri : string) (affil_id : ident) : result Profile :=
  if str_truthy uri && negb (ident_truthy affil_id) then
    Return (ElsProfile.__init__ uri)
  else if ident_truthy affil_id && negb (str_truthy uri) then
    Return (ElsProfile.__init__ (_uri_base +:+ str affil_id))
  else if negb (str_truthy uri) && negb (ident_truthy affil_id) then
    Raise (ValueError "No URI or affiliation ID specified")
  else
    Raise (ValueError "Both URI and affiliation ID specified; just need one.").

(** [self.data["affiliation-name"]] *)
Definition name (p : Profile) : result pyval :=
  py_getitem_key (data p) "affiliation-name".

Definition read (els_client : option ElsClient) : M St bool :=
  let* ok := ElsProfile.read _payload_type els_client in
  if ok then ret true else ret false.

Definition read_docs (els_client : option ElsClient) : M St bool :=
  ElsProfile.read_docs _payload_type els_client.

End ElsAffil.

(* ===================================================================== *)
(** ** Sequences of operations *)
(* ===================================================================== *)

Inductive kind : Type := Author | Affil.

Inductive op : Type :=
| OpRead (els_client : option ElsClient)
| OpReadDocs (els_client : option ElsClient)
| OpReadMetrics (els_client : option ElsClient)
| OpWriteDocs.

(** One call on an object of class [k]; an affiliation has no
    [read_metrics] attribute. *)
Definition run_op (k : kind) (o : op) : M St bool :=
  match o, k with
  | OpRead c, Author => ElsAuthor.read c
  | OpRead c, Affil => ElsAffil.read c
  | OpReadDocs c, Author => ElsAuthor.read_docs c
  | OpReadDocs c, Affil => ElsAffil.read_docs c
  | OpReadMetrics c, Author => ElsAuthor.read_metrics c
  | OpReadMetrics c, Affil => raise AttributeError
  | OpWriteDocs, _ => ElsProfile.write_docs
  end.

(** The calls of [ops] in turn, whatever each one returns or raises, with
    the outcome of each. *)
Fixpoint run_ops (k : kind) (ops : list op) (s : St)
  : list (op * result bool) * St :=
  match ops with
  | [] => ([], s)
  | o :: r =>
      let '(res, s1) := run_op k o s in
      let '(tr, s2) := run_ops k r s1 in
      ((o, res) :: tr, s2)
  end.

(** The constructor of class [k]. *)
Definition construct (k : kind) (uri : string) (id : ident) : result Profile :=
  match k with
  | Author => ElsAuthor.__init__ uri id
  | Affil => ElsAffil.__init__ uri id
  end.

(** The client a call runs with: the one given, else the one bound. *)
Definition available (els_client : option ElsClient) (p : Profile)
  : option ElsClient :=
  match els_client with
  | Some c => Some c
  | None => client p
  end.

(** A value that has a length, and not the length 0. *)
Definition nonempty (v : pyval) : bool :=
  match py_len v with
  | Return n => negb (n =? 0)%nat
  | Raise _ => false
  end.

Ltac run :=
  unfold bind, ret, raise, lift, self, update_self, in_world, try_except,
    get_state, put_state, exec_request in *;
  simpl in *.

(** What [read_docs] does once a client is available: one request, then the
    outcome according to the answer. [bound] is the object after the binding
    step, [sent] the world after the request. *)
Definition bound (els_client : option ElsClient) (p : Profile) : Profile :=
  match els_client with
  | Some c => set_client (Some c) p
  | None => p
  end.

Definition sent (url : string) (w : World) : World :=
  mkWorld (requests w ++ [url]) (files w) (frame_error w).

(** The URL that [read_metrics] asks for. *)
Definition metrics_url (p : Profile) : string :=
  uri p +:+ "?field=document-count,cited-by-count,citation-count,h-index,dc:identifier".

(** The [data] a successful [read_metrics] leaves: the four entries of
    [coredata] and the top-level [h-index], written over the containers
    [d0] and [core0] it started from. *)
Definition metrics_written (ident : pyval) (zc zd zh : Z)
    (d0 core0 : list (string * pyval)) : pyval :=
  PDict
    (dict_set "h-index" (PInt zh)
       (dict_set "coredata"
          (PDict
             (dict_set "document-count" (PInt zd)
                (dict_set "cited-by-count" (PInt zc)
                   (dict_set "citation-count" (PInt zc)
                      (dict_set "dc:identifier" ident core0)))))
          d0)).

(* ===================================================================== *)
(** ** Sample objects, clients and answers *)
(* ===================================================================== *)

Definition author_uri : string :=
  "https://api.elsevier.com/content/author/author_id/7004367821".

Definition doc1 : pyval :=
  PDict [("dc:identifier", PStr "SCOPUS_ID:85012345678");
         ("dc:title", PStr "On profiles"); ("citedby-count", PStr "12")].
Definition doc2 : pyval :=
  PDict [("dc:identifier", PStr "SCOPUS_ID:85087654321");
         ("dc:title", PStr "On documents"); ("citedby-count", PStr "0")].

Definition search_answer : pyval :=
  PDict [("search-results",
          PDict [("opensearch:totalResults", PStr "2");
                 ("entry", PList [doc1; doc2])])].

Definition error_answer : pyval :=
  PDict [("service-error", PDict [("status", PStr "RESOURCE_NOT_FOUND")])].

Definition metrics_answer : pyval :=
  PDict [("author-retrieval-response",
          PList [PDict [("coredata",
                         PDict [("dc:identifier", PStr "AUTHOR_ID:7004367821");
                                ("document-count", PStr "153");
                                ("cited-by-count", PStr "4821");
                                ("citation-count", PInt 5309)]);
                        ("h-index", PStr "37")]])].

Definition profile_answer : pyval :=
  PDict [("author-retrieval-response",
          PDict [("coredata", PDict [("dc:identifier", PStr "AUTHOR_ID:7004367821");
                                     ("eid", PStr "9-s2.0-7004367821")]);
                 ("author-profile",
                  PDict [("preferred-name",
                          PDict [("given-name", PStr "A"); ("surname", PStr "B")])])])].

(** A client that always answers [v], one that always raises [e]. *)
Definition answering (v : pyval) : ElsClient := mkClient (fun _ _ => Return v).
Definition failing (e : exn) : ElsClient := mkClient (fun _ _ => Raise e).

(** A world with no request made and no file, in which every frame is
    built. *)
Definition world0 : World := mkWorld [] ∅ (fun _ => None).

(** A world in which a list of documents has no frame when the
    [citedby-count] of one of them is a text that is no number: the
    construction converts that column with [int], and the error of [int]
    ends it. *)
Fixpoint count_error (l : list pyval) : option exn :=
  match l with
  | [] => None
  | PDict d :: r =>
      match dict_get "citedby-count" d with
      | Some (PStr s) =>
          match py_int (PStr s) with
          | Raise e => Some e
          | Return _ => count_error r
          end
      | _ => count_error r
      end
  | _ :: r => count_error r
  end.

Definition world_strict : World :=
  mkWorld [] ∅ (fun docs => match docs with
                            | PList l => count_error l
                            | _ => None
                            end).

(** A document whose citation count is no number, and the answer of a search
    that finds it. *)
Definition doc_bad : pyval :=
  PDict [("dc:identifier", PStr "SCOPUS_ID:3"); ("citedby-count", PStr "n/a")].

Definition bad_search_answer : pyval :=
  PDict [("search-results", PDict [("entry", PList [doc_bad])])].

(** A fresh author, and one holding a document list from an earlier fetch. *)
Definition author0 : Profile := ElsProfile.__init__ author_uri.
Definition author1 : Profile := set_doc_list (PList [doc2]) author0.

(** The author after a generic [read] answered by [profile_answer]. *)
Definition author_read : Profile :=
  fst (snd (ElsAuthor.read (Some (answering profile_answer)) (author0, world0))).

(** A computation that leaves the document list of the object as it is,
    whatever it returns or raises. *)
Definition keeps_docs {A} (m : M St A) : Prop :=
  forall s, _doc_list (fst (snd (m s))) = _doc_list (fst s).

(* ===================================================================== *)
(** ** Well-formed values and the text of a document list *)
(* ===================================================================== *)

(** The keys of a Python dictionary are distinct. *)
Fixpoint distinct (ks : list string) : bool :=
  match ks with
  | [] => true
  | k :: r => negb (existsb (String.eqb k) r) && distinct r
  end.

(** A value all of whose dictionaries have distinct keys: every value that
    Python can hold. *)
Fixpoint wf (v : pyval) : bool :=
  match v with
  | PList l => forallb wf l
  | PDict d => distinct (map fst d) && forallb (fun kv => wf (snd kv)) d
  | _ => true
  end.

(** The text of the elements of a list, a comma and [sp] between two of
    them; the text of the entries of a dictionary. *)
Fixpoint items_text (sp : string) (l : list pyval) : string :=
  match l with
  | [] => ""
  | x :: r =>
      json_dumps x +:+
      match r with [] => "" | _ => "," +:+ sp +:+ items_text sp r end
  end.

Fixpoint members_text (d : list (string * pyval)) : string :=
  match d with
  | [] => ""
  | (k, x) :: r =>
      dumps_str k +:+ ": " +:+ json_dumps x +:+
      match r with [] => "" | _ => ", " +:+ members_text r end
  end.

(** What may follow a value in JSON text: nothing, a comma, a closing
    bracket or brace. *)
Definition delim (rest : string) : bool :=
  match rest with
  | "" => true
  | String c _ => Ascii.eqb c "," || Ascii.eqb c "]" || Ascii.eqb c "}"
  end.

Fixpoint all_ws (s : string) : bool :=
  match s with
  | "" => true
  | String c r => is_ws c && all_ws r
  end.

(** The text written after the first document: a comma before each of the
    other documents. *)
Fixpoint tail_text (l : list pyval) : string :=
  match l with
  | [] => ""
  | x :: r => "," +:+ json_dumps x +:+ tail_text r
  end.

(** The reader returns each value from its own text, given fuel for the
    length of the text: for a value, for the elements of a list up to its
    closing bracket, for the entries of a dictionary up to its brace. *)
Definition roundtrip_value (f : nat) : Prop :=
  forall v sp rest,
    wf v = true -> all_ws sp = true -> delim rest = true ->
    String.length (json_dumps v) <= f ->
    parse_value f (sp +:+ json_dumps v +:+ rest) = Some (v, rest).

Definition roundtrip_elems (f : nat) : Prop :=
  forall l sp0 sp rest,
    l <> [] -> forallb wf l = true -> all_ws sp0 = true -> all_ws sp = true ->
    String.length (items_text sp l) + 1 <= f ->
    parse_elems f (sp0 +:+ items_text sp l +:+ String "]" rest)
    = Some (l, rest).

Definition roundtrip_members (f : nat) : Prop :=
  forall d sp0 rest,
    d <> [] -> forallb (fun kv => wf (snd kv)) d = true -> all_ws sp0 = true ->
    String.length (members_text d) + 1 <= f ->
    parse_members f (sp0 +:+ members_text d +:+ String "}" rest)
    = Some (d, rest).

(** The body of the loop of [write_docs] for the file at [path]. *)
Definition write_body (path : string) (i : nat) : M St unit :=
  let* p := self in
  let* d := lift (py_getitem_idx (doc_list p) i) in
  in_world (fs_write path ("," +:+ json_dumps d)).

(** [f.write(text)] as a change of the world. *)
Definition append_file (path text : string) (w : World) : World :=
  snd (fs_write path text w).

(* ===================================================================== *)
(** ** What a call leaves alone *)
(* ===================================================================== *)

(** A computation that leaves a part of the state, picked by [proj], as it
    is, whatever it returns or raises. *)
Definition preserves {A B} (proj : St -> B) (m : M St A) : Prop :=
  forall s, proj (snd (m s)) = proj s.

(** The object but for its data. *)
Definition but_data (s : St) : string * option ElsClient * pyval * option Frame :=
  (uri (fst s), client (fst s), doc_list (fst s), docsframe (fst s)).

(** The object; the requests issued so far; the URI of the object. *)
Definition the_object (s : St) : Profile := fst s.
Definition the_requests (s : St) : list string := requests (snd s).
Definition the_uri (s : St) : string := uri (fst s).

(** An error of the client that is no transport error. *)
Definition KeyError_sample : exn := KeyError "X-ELS-APIKey".

(** The calls that the module itself defines (the generic [read] is the
    base class's). *)
Definition in_source (o : op) : bool :=
  match o with
  | OpRead _ => false
  | _ => true
  end.

(** [urllib.parse.unquote_plus], for the texts that [quote_plus] makes. *)
Fixpoint unquote_plus (s : string) : string :=
  match s with
  | "" => ""
  | String c r =>
      if Ascii.eqb c "+" then String " " (unquote_plus r)
      else if Ascii.eqb c "%" then
        match r with
        | String h1 (String h2 r1) =>
            match hex_val h1, hex_val h2 with
            | Some x, Some y =>
                let b := x * 16 + y in
                if (b <? 128)%nat then String (ascii_of_nat b) (unquote_plus r1)
                else
                  match r1 with
                  | String _ (String h3 (String h4 r2)) =>
                      match hex_val h3, hex_val h4 with
                      | Some z, Some t =>
                          String (ascii_of_nat ((b - 192) * 64 + (z * 16 + t - 128)))
                                 (unquote_plus r2)
                      | _, _ => ""
                      end
                  | _ => ""
                  end
            | _, _ => ""
            end
        | _ => ""
        end
      else String c (unquote_plus r)
  end.

(** An answer to [read_metrics] whose [document-count] is no number. *)
Definition bad_metrics_answer : pyval :=
  PDict [("author-retrieval-response",
          PList [PDict [("coredata",
                         PDict [("dc:identifier", PStr "AUTHOR_ID:7004367821");
                                ("document-count", PStr "n/a");
                                ("citation-count", PStr "5309")]);
                        ("h-index", PStr "37")]])].

(** The call [o], made in the state [s], is a [read_docs] that leaves a
    non-empty document list behind: one that returned true, or one that
    stored the entry it received and then failed to build its frame. *)
Definition stores_documents (k : kind) (o : op) (s : St) : Prop :=
  exists c,
    o = OpReadDocs c
    /\ nonempty (doc_list (fst (snd (run_op k o s)))) = true
    /\ (fst (run_op k o s) = Return true
        \/ frame_error (snd s) (doc_list (fst (snd (run_op k o s)))) <> None).

(** What building a frame raises, as a part of the state. *)
Definition the_frames (s : St) : pyval -> option exn := frame_error (snd s).

(** The containers the writes of [read_metrics] start from. *)
Definition start_containers (p : Profile) (d0 core0 : list (string * pyval))
  : Prop :=
  if truthy (data p)
  then data p = PDict d0 /\ dict_get "coredata" d0 = Some (PDict core0)
  else d0 = [("coredata", PDict [])] /\ core0 = [].

(* ===================================================================== *)
(** * Properties *)
(* ===================================================================== *)

(* ===================================================================== *)
(** ** Construction *)
(* ===================================================================== *)

(** C7 (as stated, refuted): a numeric ID of 0 given alone does not yield an
    author whose URI is the base URL followed by "0"; the constructor takes
    it for no ID at all and raises. *)
Lemma init_id_zero_raises :
  ElsAuthor.__init__ "" (IdInt 0)
  = Raise (ValueError "No URI or author ID specified")
  /\ ~ (exists p, ElsAuthor.__init__ "" (IdInt 0) = Return p
                  /\ uri p = ElsAuthor._uri_base +:+ str (IdInt 0)).
Proof.
  split; [reflexivity |].
  intros [p [H _]]. cbv in H. discriminate H.
Qed.

(** C7 (amended): a construction from a URI alone yields an object whose
    [uri] is that URI; a construction from an ID alone, the ID being a
    non-empty string or a number other than 0, yields an object whose [uri]
    is the base URL of the class followed by [str(id)]. *)
Theorem init_uri (k : kind) (u : string) (id : ident) :
  (str_truthy u = true -> ident_truthy id = false ->
   exists p, construct k u id = Return p /\ uri p = u)
  /\
  (str_truthy u = false -> ident_truthy id = true ->
   exists p, construct k u id = Return p
             /\ uri p = match k with
                        | Author => ElsAuthor._uri_base
                        | Affil => ElsAffil._uri_base
                        end +:+ str id).
Proof.
  split; intros Hu Hid.
  - exists (ElsProfile.__init__ u). split; [| reflexivity].
    destruct k; unfold construct, ElsAuthor.__init__, ElsAffil.__init__;
      rewrite Hu, Hid; reflexivity.
  - destruct k;
      [ exists (ElsProfile.__init__ (ElsAuthor._uri_base +:+ str id))
      | exists (ElsProfile.__init__ (ElsAffil._uri_base +:+ str id)) ];
      (split; [| reflexivity]);
      unfold construct, ElsAuthor.__init__, ElsAffil.__init__;
      rewrite Hu, Hid; reflexivity.
Qed.

Lemma init_uri_witness :
  (exists p, construct Author "https://api.elsevier.com/content/author/author_id/7004367821"
               (IdStr "") = Return p
             /\ uri p = "https://api.elsevier.com/content/author/author_id/7004367821")
  /\
  (exists p, construct Affil "" (IdInt 60016849) = Return p
             /\ uri p = "https://api.elsevier.com/content/affiliation/affiliation_id/60016849").
Proof.
  split.
  - apply (init_uri Author _ (IdStr "")); reflexivity.
  - apply (init_uri Affil "" (IdInt 60016849)); reflexivity.
Defined.

(** C8 (as stated, refuted): a construction that is given both a URI and an
    ID does not always raise. With the numeric ID 0 (or an empty text)
    beside a URI the constructor takes the ID for not given and returns the
    object of that URI. *)
Lemma init_uri_and_id_zero_returns :
  construct Author "https://api.elsevier.com/content/author/author_id/7004367821"
    (IdInt 0)
  = Return (ElsProfile.__init__
              "https://api.elsevier.com/content/author/author_id/7004367821")
  /\ construct Affil "https://api.elsevier.com/content/affiliation/affiliation_id/60016849"
       (IdInt 0)
     = Return (ElsProfile.__init__
                 "https://api.elsevier.com/content/affiliation/affiliation_id/60016849")
  /\ ~ (exists msg,
          construct Author
            "https://api.elsevier.com/content/author/author_id/7004367821"
            (IdInt 0) = Raise (ValueError msg)).
Proof.
  split; [reflexivity | split; [reflexivity |]].
  intros [msg H]. cbv in H. discriminate H.
Qed.

(** C8 (amended): a construction with both a URI and an ID that count as
    given, or with neither, raises a construction error (a [ValueError]) and
    yields no object; an argument counts as given when it is truthy: a
    non-empty text, a number other than 0. *)
Theorem init_both_or_neither_raises (k : kind) (u : string) (id : ident) :
  (str_truthy u = true /\ ident_truthy id = true)
  \/ (str_truthy u = false /\ ident_truthy id = false) ->
  exists msg, construct k u id = Raise (ValueError msg).
Proof.
  intros [[Hu Hid] | [Hu Hid]];
    destruct k; unfold construct, ElsAuthor.__init__, ElsAffil.__init__;
    rewrite Hu, Hid; simpl; eexists; reflexivity.
Qed.

Lemma init_both_or_neither_raises_witness :
  (exists msg, construct Author "" (IdStr "") = Raise (ValueError msg))
  /\ (exists msg,
        construct Affil "https://api.elsevier.com/content/affiliation/affiliation_id/60016849"
          (IdInt 60016849) = Raise (ValueError msg)).
Proof.
  split.
  - apply (init_both_or_neither_raises Author "" (IdStr "")).
    right; split; reflexivity.
  - apply (init_both_or_neither_raises Affil _ (IdInt 60016849)).
    left; split; reflexivity.
Defined.

(* ===================================================================== *)
(** ** Fetching the documents *)
(* ===================================================================== *)

Lemma read_docs_unfold pt arg p w c :
  available arg p = Some c ->
  ElsProfile.read_docs pt arg (p, w) =
  let p1 := bound arg p in
  let w1 := sent (ElsProfile.search_url (uri p)) w in
  match respond c (requests w) (ElsProfile.search_url (uri p)) with
  | Raise e => if is_transport e then (Return false, (p1, w1))
               else (Raise e, (p1, w1))
  | Return resp =>
      match py_get resp "search-results" (PDict []) with
      | Raise e => (Raise e, (p1, w1))
      | Return results =>
          match py_get results "entry" (PList []) with
          | Raise e => (Raise e, (p1, w1))
          | Return entry =>
              match py_len entry with
              | Raise e => (Raise e, (set_doc_list entry p1, w1))
              | Return _ =>
                  match frame_error w entry with
                  | Some e =>
                      if is_transport e
                      then (Return false, (set_doc_list entry p1, w1))
                      else (Raise e, (set_doc_list entry p1, w1))
                  | None =>
                      (Return true,
                       (set_docsframe (recast_df_DataFrame entry)
                          (set_doc_list entry p1), w1))
                  end
              end
          end
      end
  end.
Proof.
  intros Hc. unfold ElsProfile.read_docs, sent.
  assert (Hb : client (bound arg p) = Some c
               /\ uri (bound arg p) = uri p).
  { destruct arg; simpl in *; [injection Hc as -> |]; auto. }
  destruct Hb as [Hb Hu].
  assert (E : forall (k : unit -> M St bool),
             bind (match arg with
                   | Some c0 => update_self (set_client (Some c0))
                   | None =>
                       bind self (fun p0 =>
                         match client p0 with
                         | None => raise binding_error
                         | Some _ => ret tt
                         end)
                   end) k (p, w) = k tt (bound arg p, w)).
  { intros k. destruct arg; run; [reflexivity |].
    rewrite Hc. reflexivity. }
  rewrite E. clear E. unfold build_frame. run. rewrite Hb, Hu. simpl.
  destruct (respond c (requests w) _) as [resp | e]; simpl;
    [| destruct (is_transport e); reflexivity].
  destruct resp as [| | | | | o]; simpl; try reflexivity.
  destruct (dict_get "search-results" o) as [results |]; simpl.
  - destruct results as [| | | | | sr]; simpl; try reflexivity.
    destruct (dict_get "entry" sr) as [entry |]; simpl.
    + destruct entry; simpl; try reflexivity;
        match goal with
        | |- context [frame_error w ?v] =>
            destruct (frame_error w v) as [e |];
              [destruct (is_transport e) |]; reflexivity
        end.
    + destruct (frame_error w (PList [])) as [e |];
        [destruct (is_transport e) |]; reflexivity.
  - destruct (frame_error w (PList [])) as [e |];
      [destruct (is_transport e) |]; reflexivity.
Qed.

(** C1 (as stated, refuted): [read_docs] does not return true on every
    answer whose [search-results.entry] is a list. When the tabular view of
    the list cannot be built (here the citation count of the document is no
    number), the list is stored all the same and the error, a [ValueError],
    escapes to the caller. *)
Lemma read_docs_list_without_frame :
  ElsAuthor.read_docs (Some (answering bad_search_answer)) (author0, world_strict)
  = (Raise (ValueError "invalid literal for int() with base 10: 'n/a'"),
     (set_doc_list (PList [doc_bad])
        (set_client (Some (answering bad_search_answer)) author0),
      sent (ElsProfile.search_url author_uri) world_strict))
  /\ fst (ElsAuthor.read_docs (Some (answering bad_search_answer))
            (author0, world_strict)) <> Return true.
Proof. split; [reflexivity | discriminate]. Qed.

(** C1 (amended): with a client available, [read_docs] on an answer whose
    [search-results.entry] is a list stores that list as [doc_list],
    replacing what the object held before, and returns true provided the
    tabular view of the list is built without error (in particular for a
    list of two documents); on an answer with no [search-results] key it
    stores the empty list and returns true under the same proviso. When
    building the view raises, the list is stored all the same and the call
    does not return true: the error escapes (a transport error turned into
    the result false). *)
Theorem read_docs_stores_entries
    (pt : string) (arg : option ElsClient) (p : Profile) (w : World)
    (c : ElsClient) (o : list (string * pyval)) :
  available arg p = Some c ->
  respond c (requests w) (ElsProfile.search_url (uri p)) = Return (PDict o) ->
  (forall sr docs,
      dict_get "search-results" o = Some (PDict sr) ->
      dict_get "entry" sr = Some (PList docs) ->
      frame_error w (PList docs) = None ->
      exists s', ElsProfile.read_docs pt arg (p, w) = (Return true, s')
                 /\ doc_list (fst s') = PList docs)
  /\
  (dict_get "search-results" o = None ->
   frame_error w (PList []) = None ->
   exists s', ElsProfile.read_docs pt arg (p, w) = (Return true, s')
              /\ doc_list (fst s') = PList [])
  /\
  (forall sr docs e,
      dict_get "search-results" o = Some (PDict sr) ->
      dict_get "entry" sr = Some (PList docs) ->
      frame_error w (PList docs) = Some e ->
      exists s', ElsProfile.read_docs pt arg (p, w)
                 = (if is_transport e then Return false else Raise e, s')
                 /\ doc_list (fst s') = PList docs).
Proof.
  intros Hc Hr. rewrite (read_docs_unfold pt arg p w c Hc), Hr. simpl.
  split; [| split].
  - intros sr docs Hsr Hentry Hf. rewrite Hsr. simpl. rewrite Hentry. simpl.
    rewrite Hf. eexists; split; reflexivity.
  - intros Hsr Hf. rewrite Hsr. simpl. rewrite Hf. eexists; split; reflexivity.
  - intros sr docs e Hsr Hentry Hf. rewrite Hsr. simpl. rewrite Hentry. simpl.
    rewrite Hf. destruct (is_transport e); eexists; split; reflexivity.
Qed.

Lemma read_docs_stores_entries_witness :
  (exists s', ElsProfile.read_docs ElsAuthor._payload_type
                (Some (answering search_answer)) (author1, world0)
              = (Return true, s')
              /\ doc_list (fst s') = PList [doc1; doc2])
  /\
  (exists s', ElsProfile.read_docs ElsAuthor._payload_type
                None (set_client (Some (answering error_answer)) author1, world0)
              = (Return true, s')
              /\ doc_list (fst s') = PList [])
  /\
  (exists s', ElsProfile.read_docs ElsAuthor._payload_type
                (Some (answering bad_search_answer)) (author1, world_strict)
              = (Raise (ValueError "invalid literal for int() with base 10: 'n/a'"),
                 s')
              /\ doc_list (fst s') = PList [doc_bad]).
Proof.
  split; [| split].
  - refine (proj1 (read_docs_stores_entries _ (Some (answering search_answer))
                     author1 world0 (answering search_answer) _ eq_refl eq_refl)
                  _ [doc1; doc2] eq_refl eq_refl eq_refl).
  - refine (proj1 (proj2 (read_docs_stores_entries _ None
                     (set_client (Some (answering error_answer)) author1)
                     world0 (answering error_answer) _ eq_refl eq_refl))
                  eq_refl eq_refl).
  - refine (proj2 (proj2 (read_docs_stores_entries _
                     (Some (answering bad_search_answer)) author1 world_strict
                     (answering bad_search_answer) _ eq_refl eq_refl))
                  _ [doc_bad] _ eq_refl eq_refl eq_refl).
Defined.

(** C4: with a client available whose request raises a transport error,
    [read_docs] returns false, nothing is raised, and [doc_list] is what it
    was before the call. *)
Theorem read_docs_transport_error
    (pt : string) (arg : option ElsClient) (p : Profile) (w : World)
    (c : ElsClient) (e : exn) :
  available arg p = Some c ->
  respond c (requests w) (ElsProfile.search_url (uri p)) = Raise e ->
  is_transport e = true ->
  exists s', ElsProfile.read_docs pt arg (p, w) = (Return false, s')
             /\ doc_list (fst s') = doc_list p.
Proof.
  intros Hc Hr He. rewrite (read_docs_unfold pt arg p w c Hc), Hr. simpl.
  rewrite He. eexists; split; [reflexivity |].
  destruct arg; reflexivity.
Qed.

Lemma read_docs_transport_error_witness :
  (exists s', ElsProfile.read_docs ElsAuthor._payload_type
                (Some (failing HTTPError)) (author0, world0) = (Return false, s')
              /\ doc_list (fst s') = PNone)
  /\
  (exists s', ElsProfile.read_docs ElsAffil._payload_type
                (Some (failing RequestException)) (author1, world0)
              = (Return false, s')
              /\ doc_list (fst s') = PList [doc2]).
Proof.
  split.
  - exact (read_docs_transport_error _ (Some (failing HTTPError)) author0 world0
             (failing HTTPError) HTTPError eq_refl eq_refl eq_refl).
  - exact (read_docs_transport_error _ (Some (failing RequestException)) author1
             world0 (failing RequestException) RequestException
             eq_refl eq_refl eq_refl).
Defined.

Lemma split_on_absent (sep : ascii) (s : string) :
  has_char sep s = false -> split_on sep s = [s].
Proof.
  induction s as [| c r IH]; simpl; [reflexivity |].
  intros H. apply orb_false_iff in H as [H1 H2].
  rewrite H1, (IH H2). reflexivity.
Qed.

Lemma split_on_last_piece (sep : ascii) (pre seg : string) :
  has_char sep seg = false ->
  exists h t, split_on sep (pre +:+ String sep seg) = (h :: t) ++ [seg].
Proof.
  intros Hseg. induction pre as [| c r (h & t & IH)]; simpl.
  - rewrite Ascii.eqb_refl, (split_on_absent _ _ Hseg).
    exists "", []. reflexivity.
  - rewrite IH. destruct (Ascii.eqb c sep).
    + exists "", (h :: t). reflexivity.
    + exists (String c h), t. reflexivity.
Qed.

(** The last piece of [s.split('/')] is what follows the last slash. *)
Lemma last_segment (pre seg : string) :
  has_char "/" seg = false ->
  List.last (split_on "/" (pre +:+ String "/" seg)) "" = seg.
Proof.
  intros Hseg.
  destruct (split_on_last_piece "/" pre seg Hseg) as (h & t & ->).
  apply List.last_last.
Qed.

(** C5 (as stated, refuted): the request of [read_docs] does not go to the
    https URL; the one request issued goes to the http URL. *)
Lemma read_docs_url_not_https :
  requests (snd (snd (ElsAuthor.read_docs (Some (answering search_answer))
                        (author0, world0))))
  = ["http://api.elsevier.com/content/search/scopus?query=au-id(7004367821)&view=COMPLETE"]
  /\ requests (snd (snd (ElsAuthor.read_docs (Some (answering search_answer))
                           (author0, world0))))
     <> ["https://api.elsevier.com/content/search/scopus?query=au-id(7004367821)&view=COMPLETE"].
Proof.
  split; [reflexivity |]. vm_compute. discriminate.
Qed.

(** C5 (amended): with a client available, [read_docs] of an author or an
    affiliation issues exactly one GET, to
    [http://api.elsevier.com/content/search/scopus?query=au-id(<id>)&view=COMPLETE],
    where [<id>] is what follows the last slash of the object's URI; this
    whatever the client answers. *)
Theorem read_docs_one_request
    (k : kind) (arg : option ElsClient) (p : Profile) (w : World)
    (c : ElsClient) (pre id : string) :
  available arg p = Some c ->
  uri p = pre +:+ String "/" id ->
  has_char "/" id = false ->
  requests (snd (snd (run_op k (OpReadDocs arg) (p, w))))
  = requests w
    ++ ["http://api.elsevier.com/content/search/scopus?query=au-id("
        +:+ id +:+ ")&view=COMPLETE"].
Proof.
  intros Hc Hu Hid.
  assert (E : forall pt,
             requests (snd (snd (ElsProfile.read_docs pt arg (p, w))))
             = requests w ++ [ElsProfile.search_url (uri p)]).
  { intros pt. rewrite (read_docs_unfold pt arg p w c Hc). simpl.
    destruct (respond c _ _) as [resp | e];
      [| destruct (is_transport e); reflexivity].
    destruct (py_get resp _ _) as [results | e]; [| reflexivity].
    destruct (py_get results _ _) as [entry | e]; [| reflexivity].
    destruct (py_len entry); [| reflexivity].
    destruct (frame_error w entry) as [e |];
      [destruct (is_transport e) |]; reflexivity. }
  destruct k; simpl; unfold ElsAuthor.read_docs, ElsAffil.read_docs;
    rewrite E; unfold ElsProfile.search_url;
    rewrite Hu, (last_segment pre id Hid); reflexivity.
Qed.

Lemma read_docs_one_request_witness :
  requests (snd (snd (run_op Affil (OpReadDocs (Some (failing HTTPError)))
                        (ElsProfile.__init__
                           "https://api.elsevier.com/content/affiliation/affiliation_id/60016849",
                         world0))))
  = ["http://api.elsevier.com/content/search/scopus?query=au-id(60016849)&view=COMPLETE"].
Proof.
  exact (read_docs_one_request Affil (Some (failing HTTPError))
           (ElsProfile.__init__
              "https://api.elsevier.com/content/affiliation/affiliation_id/60016849")
           world0 (failing HTTPError)
           "https://api.elsevier.com/content/affiliation/affiliation_id"
           "60016849" eq_refl eq_refl eq_refl).
Defined.

(** C6 (the code at the failing input): [read_metrics] called without a
    client argument raises [AttributeError] and changes nothing, whether or
    not the author is bound to a client; the bound client is never used. *)
Theorem read_metrics_without_argument (p : Profile) (w : World) :
  ElsAuthor.read_metrics None (p, w) = (Raise AttributeError, (p, w)).
Proof.
  unfold ElsAuthor.read_metrics. run. destruct p; reflexivity.
Qed.

(* ===================================================================== *)
(** ** Refreshing the metrics *)
(* ===================================================================== *)

Lemma bind_return_inv {S A B} (m : M S A) (f : A -> M S B) s b s' :
  bind m f s = (Return b, s') ->
  exists a s1, m s = (Return a, s1) /\ f a s1 = (Return b, s').
Proof.
  unfold bind. destruct (m s) as [[a | e] s1]; intros H;
    [eauto | discriminate].
Qed.

Lemma try_except_return_inv {S A} (body : M S A) catches handler s b s' :
  try_except body catches handler s = (Return b, s') ->
  body s = (Return b, s')
  \/ exists e s1, body s = (Raise e, s1) /\ catches e = true
                  /\ handler e s1 = (Return b, s').
Proof.
  unfold try_except. destruct (body s) as [[a | e] s1]; intros H;
    [left; exact H |].
  destruct (catches e) eqn:E; [right; eauto | discriminate].
Qed.

Lemma lift_return_inv {S A} (r : result A) (s s' : S) a :
  lift r s = (Return a, s') -> r = Return a /\ s' = s.
Proof.
  unfold lift. intros H. injection H as -> ->. auto.
Qed.

Lemma dict_get_set_eq k v d : dict_get k (dict_set k v d) = Some v.
Proof.
  induction d as [| [k' v'] r IH]; simpl.
  - rewrite String.eqb_refl. reflexivity.
  - destruct (String.eqb k k') eqn:E; simpl.
    + rewrite String.eqb_refl. reflexivity.
    + rewrite E. exact IH.
Qed.

Lemma dict_get_set_ne k k' v d :
  k' <> k -> dict_get k' (dict_set k v d) = dict_get k' d.
Proof.
  intros Hne. induction d as [| [k0 v0] r IH]; simpl.
  - destruct (String.eqb_spec k' k); [contradiction | reflexivity].
  - destruct (String.eqb_spec k k0) as [-> | Hk]; simpl.
    + destruct (String.eqb_spec k' k0); [contradiction | reflexivity].
    + destruct (String.eqb k' k0); [reflexivity | exact IH].
Qed.

Lemma dict_set_set k v1 v2 d :
  dict_set k v2 (dict_set k v1 d) = dict_set k v2 d.
Proof.
  induction d as [| [k0 v0] r IH]; simpl.
  - rewrite String.eqb_refl. reflexivity.
  - destruct (String.eqb k k0) eqn:E; simpl.
    + rewrite String.eqb_refl. reflexivity.
    + rewrite E, IH. reflexivity.
Qed.

Lemma set_coredata_inv k v p w s' :
  ElsAuthor.set_coredata k v (p, w) = (Return tt, s') ->
  exists d core,
    data p = PDict d /\ dict_get "coredata" d = Some (PDict core)
    /\ s' = (set_data (PDict (dict_set "coredata" (PDict (dict_set k v core)) d)) p,
             w).
Proof.
  unfold ElsAuthor.set_coredata, data. run.
  destruct (_data (entity p)) as [| | | | | d]; simpl; try discriminate.
  destruct (dict_get "coredata" d) as [core |] eqn:E; simpl; [| discriminate].
  destruct core as [| | | | | core]; simpl; try discriminate.
  intros H. injection H as <-. eauto.
Qed.

Lemma set_toplevel_inv k v p w s' :
  ElsAuthor.set_toplevel k v (p, w) = (Return tt, s') ->
  exists d, data p = PDict d /\ s' = (set_data (PDict (dict_set k v d)) p, w).
Proof.
  unfold ElsAuthor.set_toplevel, data. run.
  destruct (_data (entity p)) as [| | | | | d]; simpl; try discriminate.
  intros H. injection H as <-. eauto.
Qed.

Lemma int_of_inv r v : ElsAuthor.int_of r = Return v ->
  exists x z, r = Return x /\ py_int x = Return z /\ v = PInt z.
Proof.
  unfold ElsAuthor.int_of. destruct r as [x | e]; [| discriminate].
  destruct (py_int x) as [z | e] eqn:E; [| discriminate].
  intros H. injection H as <-. exists x, z. auto.
Qed.

Lemma set_coredata_run k v p w d core :
  data p = PDict d -> dict_get "coredata" d = Some (PDict core) ->
  ElsAuthor.set_coredata k v (p, w)
  = (Return tt,
     (set_data (PDict (dict_set "coredata" (PDict (dict_set k v core)) d)) p, w)).
Proof.
  intros Hd Hc. unfold ElsAuthor.set_coredata, data in *. run.
  rewrite Hd. simpl. rewrite Hc. reflexivity.
Qed.

Lemma set_data_set_data x y p : set_data x (set_data y p) = set_data x p.
Proof. reflexivity. Qed.

Lemma read_metrics_success arg p w s' :
  ElsAuthor.read_metrics arg (p, w) = (Return true, s') ->
  exists c resp payload first core ident vc vd vh zc zd zh d0 core0,
    arg = Some c
    /\ respond c (requests w) (metrics_url p) = Return resp
    /\ py_getitem_key resp ElsAuthor._payload_type = Return payload
    /\ py_getitem_idx payload 0 = Return first
    /\ py_getitem_key first "coredata" = Return core
    /\ py_getitem_key core "dc:identifier" = Return ident
    /\ py_getitem_key core "citation-count" = Return vc
    /\ py_getitem_key core "document-count" = Return vd
    /\ py_getitem_key first "h-index" = Return vh
    /\ py_int vc = Return zc /\ py_int vd = Return zd /\ py_int vh = Return zh
    /\ (if truthy (data p)
        then data p = PDict d0 /\ dict_get "coredata" d0 = Some (PDict core0)
        else d0 = [("coredata", PDict [])] /\ core0 = [])
    /\ s' = (set_data (metrics_written ident zc zd zh d0 core0) p,
             sent (metrics_url p) w).
Proof.
  intros H. unfold ElsAuthor.read_metrics in H.
  apply bind_return_inv in H as (r & s1 & Htry & Hret).
  apply try_except_return_inv in Htry as [Hbody | (e & s2 & _ & _ & Hh)].
  2: { injection Hh as <- <-. discriminate Hret. }
  apply bind_return_inv in Hbody as (p0 & s0 & Hself & Hbody).
  injection Hself as <- <-.
  apply bind_return_inv in Hbody as (c & s0 & Hc & Hbody).
  destruct arg as [c' |]; [| discriminate Hc]. injection Hc as <- <-.
  apply bind_return_inv in Hbody as (resp & s0 & Hreq & Hbody).
  unfold in_world, exec_request in Hreq. cbn [fst snd] in Hreq.
  change (uri p +:+ "?field=" +:+ join "," ElsAuthor.fields)
    with (metrics_url p) in Hreq.
  injection Hreq as Hresp <-.
  apply bind_return_inv in Hbody as (payload & s0 & Hpay & Hbody).
  apply lift_return_inv in Hpay as [Hpay ->].
  apply bind_return_inv in Hbody as (first & s0 & Hfirst & Hbody).
  apply lift_return_inv in Hfirst as [Hfirst ->].
  apply bind_return_inv in Hbody as ([] & s0 & Hinit & Hbody).
  apply bind_return_inv in Hbody as (ident & s3 & Hid & Hbody).
  apply lift_return_inv in Hid as [Hid ->].
  apply bind_return_inv in Hbody as ([] & s4 & Hset1 & Hbody).
  apply bind_return_inv in Hbody as (v1 & s5 & Hv1 & Hbody).
  apply lift_return_inv in Hv1 as [Hv1 ->].
  apply bind_return_inv in Hbody as ([] & s6 & Hset2 & Hbody).
  apply bind_return_inv in Hbody as (v2 & s7 & Hv2 & Hbody).
  apply lift_return_inv in Hv2 as [Hv2 ->].
  apply bind_return_inv in Hbody as ([] & s8 & Hset3 & Hbody).
  apply bind_return_inv in Hbody as (v3 & s9 & Hv3 & Hbody).
  apply lift_return_inv in Hv3 as [Hv3 ->].
  apply bind_return_inv in Hbody as ([] & s10 & Hset4 & Hbody).
  apply bind_return_inv in Hbody as (v4 & s11 & Hv4 & Hbody).
  apply lift_return_inv in Hv4 as [Hv4 ->].
  apply bind_return_inv in Hbody as ([] & s12 & Hset5 & Hbody).
  injection Hbody as <- <-. injection Hret as <-.
  apply int_of_inv in Hv1 as (vc & zc & Hvc & Hzc & ->).
  apply int_of_inv in Hv2 as (vc' & zc' & Hvc' & Hzc' & ->).
  rewrite Hvc in Hvc'. injection Hvc' as <-.
  rewrite Hzc in Hzc'. injection Hzc' as <-.
  apply int_of_inv in Hv3 as (vd & zd & Hvd & Hzd & ->).
  apply int_of_inv in Hv4 as (vh & zh & Hvh & Hzh & ->).
  unfold ElsAuthor.coredata_of in Hid, Hvc, Hvd.
  destruct (py_getitem_key first "coredata") as [core | e] eqn:Hcore;
    [| discriminate Hid].
  (* the containers the writes start from *)
  assert (Hstart : exists d0 core0 p1,
             s0 = (p1, sent (metrics_url p) w)
             /\ data p1 = PDict d0
             /\ dict_get "coredata" d0 = Some (PDict core0)
             /\ (forall x, set_data x p1 = set_data x p)
             /\ (if truthy (data p)
                 then data p = PDict d0
                      /\ dict_get "coredata" d0 = Some (PDict core0)
                 else d0 = [("coredata", PDict [])] /\ core0 = [])).
  { destruct (truthy (data p)) eqn:Ht; simpl in Hinit.
    - injection Hinit as <-.
      destruct (set_coredata_inv _ _ _ _ _ Hset1) as (d0 & core0 & Hd & Hc & _).
      exists d0, core0, p. auto 10.
    - exists [("coredata", PDict [])], [],
        (set_data (PDict [("coredata", PDict [])]) p).
      revert Hinit. unfold ElsAuthor.set_toplevel. run.
      intros Hinit. injection Hinit as <-. auto 10. }
  destruct Hstart as (d0 & core0 & p1 & -> & Hd0 & Hc0 & Hp1 & Hcase).
  rewrite (set_coredata_run _ _ _ _ _ _ Hd0 Hc0) in Hset1.
  injection Hset1 as <-.
  erewrite set_coredata_run in Hset2;
    [| reflexivity | apply dict_get_set_eq].
  injection Hset2 as <-.
  erewrite set_coredata_run in Hset3;
    [| reflexivity | apply dict_get_set_eq].
  injection Hset3 as <-.
  erewrite set_coredata_run in Hset4;
    [| reflexivity | apply dict_get_set_eq].
  injection Hset4 as <-.
  apply set_toplevel_inv in Hset5 as (d & Hd & ->).
  cbn in Hd. injection Hd as <-.
  rewrite !set_data_set_data, !dict_set_set, Hp1.
  exists c', resp, payload, first, core, ident, vc, vd, vh, zc, zd, zh, d0, core0.
  repeat (split; [assumption || reflexivity |]).
  reflexivity.
Qed.

(** C3: after a successful [read_metrics], [document-count] and
    [citation-count] of [data.coredata] and [h-index] of [data] are the
    integers that [int] makes of the fields of the same names in the first
    element of the payload, and [cited-by-count] of [data.coredata] is the
    integer made of the payload's [citation-count]. *)
Theorem read_metrics_stores_integers
    (arg : option ElsClient) (p : Profile) (w : World) (s' : St) :
  ElsAuthor.read_metrics arg (p, w) = (Return true, s') ->
  exists c resp payload first core vc vd vh zc zd zh d' core',
    arg = Some c
    /\ respond c (requests w) (metrics_url p) = Return resp
    /\ py_getitem_key resp "author-retrieval-response" = Return payload
    /\ py_getitem_idx payload 0 = Return first
    /\ py_getitem_key first "coredata" = Return core
    /\ py_getitem_key core "citation-count" = Return vc /\ py_int vc = Return zc
    /\ py_getitem_key core "document-count" = Return vd /\ py_int vd = Return zd
    /\ py_getitem_key first "h-index" = Return vh /\ py_int vh = Return zh
    /\ data (fst s') = PDict d'
    /\ dict_get "coredata" d' = Some (PDict core')
    /\ dict_get "document-count" core' = Some (PInt zd)
    /\ dict_get "citation-count" core' = Some (PInt zc)
    /\ dict_get "cited-by-count" core' = Some (PInt zc)
    /\ dict_get "h-index" d' = Some (PInt zh).
Proof.
  intros H.
  destruct (read_metrics_success _ _ _ _ H)
    as (c & resp & payload & first & core & ident & vc & vd & vh & zc & zd
        & zh & d0 & core0 & Harg & Hresp & Hpay & Hfirst & Hcore & Hid & Hvc
        & Hvd & Hvh & Hzc & Hzd & Hzh & _ & ->).
  exists c, resp, payload, first, core, vc, vd, vh, zc, zd, zh.
  eexists. eexists.
  repeat (split; [eassumption |]).
  split; [reflexivity |].
  split.
  { rewrite dict_get_set_ne by discriminate. apply dict_get_set_eq. }
  split; [apply dict_get_set_eq |].
  split.
  { do 2 (rewrite dict_get_set_ne by discriminate). apply dict_get_set_eq. }
  split.
  { rewrite dict_get_set_ne by discriminate. apply dict_get_set_eq. }
  apply dict_get_set_eq.
Qed.

Lemma read_metrics_stores_integers_witness :
  exists c resp payload first core vc vd vh zc zd zh d' core',
    Some (answering metrics_answer) = Some c
    /\ respond c (requests world0) (metrics_url author0) = Return resp
    /\ py_getitem_key resp "author-retrieval-response" = Return payload
    /\ py_getitem_idx payload 0 = Return first
    /\ py_getitem_key first "coredata" = Return core
    /\ py_getitem_key core "citation-count" = Return vc /\ py_int vc = Return zc
    /\ py_getitem_key core "document-count" = Return vd /\ py_int vd = Return zd
    /\ py_getitem_key first "h-index" = Return vh /\ py_int vh = Return zh
    /\ data (fst (snd (ElsAuthor.read_metrics (Some (answering metrics_answer))
                         (author0, world0)))) = PDict d'
    /\ dict_get "coredata" d' = Some (PDict core')
    /\ dict_get "document-count" core' = Some (PInt zd)
    /\ dict_get "citation-count" core' = Some (PInt zc)
    /\ dict_get "cited-by-count" core' = Some (PInt zc)
    /\ dict_get "h-index" d' = Some (PInt zh).
Proof.
  apply (read_metrics_stores_integers (Some (answering metrics_answer))
           author0 world0). vm_compute. reflexivity.
Defined.

(** The integers stored for the sample answer: [cited-by-count] is the
    payload's [citation-count] (5309), not its [cited-by-count] (4821). *)
Example read_metrics_sample :
  data (fst (snd (ElsAuthor.read_metrics (Some (answering metrics_answer))
                    (author0, world0))))
  = PDict [("coredata",
            PDict [("dc:identifier", PStr "AUTHOR_ID:7004367821");
                   ("citation-count", PInt 5309);
                   ("cited-by-count", PInt 5309);
                   ("document-count", PInt 153)]);
           ("h-index", PInt 37)].
Proof. reflexivity. Qed.

(** C9: a successful [read_metrics] leaves [data] a dictionary with a
    [coredata] dictionary. When the object had no data, the two are new and
    hold the five values written and nothing else. When it had data, every
    entry of [data] other than [coredata] and [h-index], and every entry of
    [coredata] other than [dc:identifier], [citation-count],
    [cited-by-count] and [document-count], is what it was; the rest of the
    object is untouched. *)
Theorem read_metrics_frame
    (arg : option ElsClient) (p : Profile) (w : World) (s' : St) :
  ElsAuthor.read_metrics arg (p, w) = (Return true, s') ->
  (truthy (data p) = false ->
   exists ident zc zd zh,
     data (fst s')
     = PDict [("coredata",
               PDict [("dc:identifier", ident); ("citation-count", PInt zc);
                      ("cited-by-count", PInt zc); ("document-count", PInt zd)]);
              ("h-index", PInt zh)])
  /\
  (truthy (data p) = true ->
   exists d0 core0 d' core',
     data p = PDict d0 /\ dict_get "coredata" d0 = Some (PDict core0)
     /\ data (fst s') = PDict d' /\ dict_get "coredata" d' = Some (PDict core')
     /\ (forall k, k <> "coredata" -> k <> "h-index" ->
                   dict_get k d' = dict_get k d0)
     /\ (forall k, k <> "dc:identifier" -> k <> "citation-count" ->
                   k <> "cited-by-count" -> k <> "document-count" ->
                   dict_get k core' = dict_get k core0))
  /\ uri (fst s') = uri p
  /\ client (fst s') = client p
  /\ doc_list (fst s') = doc_list p
  /\ docsframe (fst s') = docsframe p.
Proof.
  intros H.
  destruct (read_metrics_success _ _ _ _ H)
    as (c & resp & payload & first & core & ident & vc & vd & vh & zc & zd
        & zh & d0 & core0 & _ & _ & _ & _ & _ & _ & _ & _ & _ & _ & _ & _
        & Hcase & ->).
  split; [| split].
  - intros Ht. rewrite Ht in Hcase. destruct Hcase as [-> ->].
    exists ident, zc, zd, zh. reflexivity.
  - intros Ht. rewrite Ht in Hcase. destruct Hcase as [Hd0 Hc0].
    exists d0, core0. eexists. eexists.
    split; [exact Hd0 |]. split; [exact Hc0 |].
    split; [reflexivity |].
    split.
    { rewrite dict_get_set_ne by discriminate. apply dict_get_set_eq. }
    split.
    + intros k Hk1 Hk2. rewrite !dict_get_set_ne by assumption. reflexivity.
    + intros k Hk1 Hk2 Hk3 Hk4. rewrite !dict_get_set_ne by assumption.
      reflexivity.
  - repeat split.
Qed.

Lemma read_metrics_frame_witness :
  (exists ident zc zd zh,
     data (fst (snd (ElsAuthor.read_metrics (Some (answering metrics_answer))
                       (author0, world0))))
     = PDict [("coredata",
               PDict [("dc:identifier", ident); ("citation-count", PInt zc);
                      ("cited-by-count", PInt zc); ("document-count", PInt zd)]);
              ("h-index", PInt zh)])
  /\
  (exists d0 core0 d' core',
     data author_read = PDict d0 /\ dict_get "coredata" d0 = Some (PDict core0)
     /\ data (fst (snd (ElsAuthor.read_metrics (Some (answering metrics_answer))
                          (author_read, world0)))) = PDict d'
     /\ dict_get "coredata" d' = Some (PDict core')
     /\ (forall k, k <> "coredata" -> k <> "h-index" ->
                   dict_get k d' = dict_get k d0)
     /\ (forall k, k <> "dc:identifier" -> k <> "citation-count" ->
                   k <> "cited-by-count" -> k <> "document-count" ->
                   dict_get k core' = dict_get k core0)).
Proof.
  split.
  - apply (proj1 (read_metrics_frame (Some (answering metrics_answer))
                    author0 world0 _ eq_refl)).
    reflexivity.
  - apply (proj1 (proj2 (read_metrics_frame (Some (answering metrics_answer))
                           author_read world0 _ eq_refl))).
    reflexivity.
Defined.

(** The data of the sample author after [read] and then [read_metrics]:
    [eid] and [author-profile] are kept. *)
Example read_metrics_after_read :
  data (fst (snd (ElsAuthor.read_metrics (Some (answering metrics_answer))
                    (author_read, world0))))
  = PDict [("coredata",
            PDict [("dc:identifier", PStr "AUTHOR_ID:7004367821");
                   ("eid", PStr "9-s2.0-7004367821");
                   ("citation-count", PInt 5309);
                   ("cited-by-count", PInt 5309);
                   ("document-count", PInt 153)]);
           ("author-profile",
            PDict [("preferred-name",
                    PDict [("given-name", PStr "A"); ("surname", PStr "B")])]);
           ("h-index", PInt 37)].
Proof. reflexivity. Qed.

(* ===================================================================== *)
(** ** What a step of a call leaves alone *)
(* ===================================================================== *)

Section Preserves.
Context {B : Type} (proj : St -> B).

Lemma preserves_ret {A} (a : A) : preserves proj (ret a).
Proof. intros s. reflexivity. Qed.

Lemma preserves_raise {A} (e : exn) : preserves proj (@raise St A e).
Proof. intros s. reflexivity. Qed.

Lemma preserves_lift {A} (r : result A) : preserves proj (lift r).
Proof. intros s. reflexivity. Qed.

Lemma preserves_self : preserves proj self.
Proof. intros s. reflexivity. Qed.

Lemma preserves_bind {A C} (m : M St A) (f : A -> M St C) :
  preserves proj m -> (forall a, preserves proj (f a)) ->
  preserves proj (bind m f).
Proof.
  intros Hm Hf s. unfold bind. specialize (Hm s).
  destruct (m s) as [[a | e] s1]; simpl in *; [| exact Hm].
  rewrite (Hf a s1). exact Hm.
Qed.

Lemma preserves_try {A} (body : M St A) catches handler :
  preserves proj body -> (forall e, preserves proj (handler e)) ->
  preserves proj (try_except body catches handler).
Proof.
  intros Hb Hh s. unfold try_except. specialize (Hb s).
  destruct (body s) as [[a | e] s1]; simpl in *; [exact Hb |].
  destruct (catches e); [| exact Hb].
  rewrite (Hh e s1). exact Hb.
Qed.

Lemma preserves_for_each (l : list nat) (body : nat -> M St unit) :
  (forall i, preserves proj (body i)) -> preserves proj (for_each l body).
Proof.
  intros Hb. induction l as [| i r IH]; simpl.
  - apply preserves_ret.
  - apply preserves_bind; [apply Hb | intros _; exact IH].
Qed.

(** What looks at the object only is kept by what runs in the world. *)
Lemma preserves_in_world {A} (m : M World A) :
  (forall p w w', proj (p, w) = proj (p, w')) -> preserves proj (in_world m).
Proof.
  intros H [p w]. unfold in_world. simpl. destruct (m w) as [r w'].
  simpl. apply H.
Qed.

(** What looks at the world only is kept by what updates the object. *)
Lemma preserves_update_self (f : Profile -> Profile) :
  (forall p w, proj (f p, w) = proj (p, w)) -> preserves proj (update_self f).
Proof. intros H [p w]. unfold update_self. simpl. apply H. Qed.
End Preserves.

Ltac preserves_steps :=
  repeat first
    [ apply preserves_bind; [| intros ?]
    | apply preserves_try; [| intros ?]
    | apply preserves_for_each; intros ?
    | apply preserves_ret
    | apply preserves_raise
    | apply preserves_lift
    | apply preserves_self
    | apply preserves_in_world; intros; reflexivity
    | apply preserves_update_self; intros; reflexivity
    | match goal with
      | |- preserves _ (if ?b then _ else _) => destruct b
      | |- preserves _ (match ?x with _ => _ end) => destruct x
      end ].

(* ===================================================================== *)
(** ** The document list over a sequence of calls *)
(* ===================================================================== *)

Lemma keeps_ret {A} (a : A) : keeps_docs (ret a).
Proof. intros s. reflexivity. Qed.

Lemma keeps_raise {A} (e : exn) : keeps_docs (@raise St A e).
Proof. intros s. reflexivity. Qed.

Lemma keeps_lift {A} (r : result A) : keeps_docs (lift r).
Proof. intros s. reflexivity. Qed.

Lemma keeps_self : keeps_docs self.
Proof. intros s. reflexivity. Qed.

Lemma keeps_in_world {A} (m : M World A) : keeps_docs (in_world m).
Proof. intros [p w]. unfold in_world. simpl. destruct (m w). reflexivity. Qed.

Lemma keeps_set_data d : keeps_docs (update_self (set_data d)).
Proof. intros s. reflexivity. Qed.

Lemma keeps_bind {A B} (m : M St A) (f : A -> M St B) :
  keeps_docs m -> (forall a, keeps_docs (f a)) -> keeps_docs (bind m f).
Proof.
  intros Hm Hf s. unfold bind. specialize (Hm s).
  destruct (m s) as [[a | e] s1]; simpl in *; [| exact Hm].
  rewrite (Hf a s1). exact Hm.
Qed.

Lemma keeps_try {A} (body : M St A) catches handler :
  keeps_docs body -> (forall e, keeps_docs (handler e)) ->
  keeps_docs (try_except body catches handler).
Proof.
  intros Hb Hh s. unfold try_except. specialize (Hb s).
  destruct (body s) as [[a | e] s1]; simpl in *; [exact Hb |].
  destruct (catches e); [| exact Hb].
  rewrite (Hh e s1). exact Hb.
Qed.

Lemma keeps_for_each (l : list nat) (body : nat -> M St unit) :
  (forall i, keeps_docs (body i)) -> keeps_docs (for_each l body).
Proof.
  intros Hb. induction l as [| i r IH]; simpl.
  - apply keeps_ret.
  - apply keeps_bind; [apply Hb | intros _; exact IH].
Qed.

Create HintDb keeps.

#[local] Hint Resolve keeps_ret keeps_raise keeps_lift keeps_self
  keeps_in_world keeps_set_data : keeps.

Ltac keeps :=
  repeat first
    [ apply keeps_bind; [| intros ?]
    | apply keeps_try; [| intros ?]
    | apply keeps_for_each; intros ?
    | solve [auto with keeps]
    | match goal with
      | |- keeps_docs (if ?b then _ else _) => destruct b
      | |- keeps_docs (match ?x with _ => _ end) => destruct x
      end ].

Lemma keeps_set_coredata k v : keeps_docs (ElsAuthor.set_coredata k v).
Proof. unfold ElsAuthor.set_coredata. keeps. Qed.

Lemma keeps_set_toplevel k v : keeps_docs (ElsAuthor.set_toplevel k v).
Proof. unfold ElsAuthor.set_toplevel. keeps. Qed.

#[local] Hint Resolve keeps_set_coredata keeps_set_toplevel : keeps.

Lemma keeps_read_metrics arg : keeps_docs (ElsAuthor.read_metrics arg).
Proof. unfold ElsAuthor.read_metrics. keeps. Qed.

Lemma keeps_write_docs : keeps_docs ElsProfile.write_docs.
Proof. unfold ElsProfile.write_docs. keeps. Qed.

Lemma keeps_read pt arg : keeps_docs (ElsProfile.read pt arg).
Proof.
  intros [p w]. unfold ElsProfile.read. simpl.
  destruct (ElsEntity.read pt arg (entity p, w)) as [r [e' w']]. reflexivity.
Qed.

#[local] Hint Resolve keeps_read : keeps.

Lemma keeps_other_ops k o :
  (forall c, o <> OpReadDocs c) -> keeps_docs (run_op k o).
Proof.
  intros Ho. destruct o as [c | c | c |]; destruct k; simpl.
  - unfold ElsAuthor.read. keeps.
  - unfold ElsAffil.read. keeps.
  - destruct (Ho c eq_refl).
  - destruct (Ho c eq_refl).
  - apply keeps_read_metrics.
  - apply keeps_raise.
  - apply keeps_write_docs.
  - apply keeps_write_docs.
Qed.

Lemma py_len_raise v e : py_len v = Raise e -> e = TypeError.
Proof. destruct v; simpl; intros H; congruence. Qed.

Lemma doc_list_bound arg p : doc_list (bound arg p) = doc_list p.
Proof. destruct arg; reflexivity. Qed.

(** A [read_docs] that does not return true leaves the document list as it
    was, or holding the entry it received: a value that has no length, or one
    whose frame cannot be built. *)
Lemma read_docs_failure pt arg s :
  fst (ElsProfile.read_docs pt arg s) <> Return true ->
  doc_list (fst (snd (ElsProfile.read_docs pt arg s))) = doc_list (fst s)
  \/ py_len (doc_list (fst (snd (ElsProfile.read_docs pt arg s))))
     = Raise TypeError
  \/ frame_error (snd s) (doc_list (fst (snd (ElsProfile.read_docs pt arg s))))
     <> None.
Proof.
  destruct s as [p w]. destruct (available arg p) as [c |] eqn:Hav.
  - rewrite (read_docs_unfold pt arg p w c Hav). simpl.
    destruct (respond c _ _) as [resp | e]; simpl.
    2: { intros _. left. destruct (is_transport e); apply doc_list_bound. }
    destruct (py_get resp _ _) as [results | e]; simpl;
      [| intros _; left; apply doc_list_bound].
    destruct (py_get results _ _) as [entry | e]; simpl;
      [| intros _; left; apply doc_list_bound].
    destruct (py_len entry) as [n | e] eqn:Hl; simpl.
    + destruct (frame_error w entry) as [e |] eqn:Hf.
      * intros _. right. right.
        destruct (is_transport e); unfold doc_list; simpl; rewrite Hf;
          discriminate.
      * intros H. destruct (H eq_refl).
    + intros _. right. left. unfold doc_list. simpl.
      rewrite Hl, (py_len_raise _ _ Hl). reflexivity.
  - destruct arg; [discriminate |]. simpl in Hav. intros _. left.
    unfold ElsProfile.read_docs. run. rewrite Hav. reflexivity.
Qed.

Lemma read_docs_failure_op k c s :
  fst (run_op k (OpReadDocs c) s) <> Return true ->
  doc_list (fst (snd (run_op k (OpReadDocs c) s))) = doc_list (fst s)
  \/ py_len (doc_list (fst (snd (run_op k (OpReadDocs c) s))))
     = Raise TypeError
  \/ frame_error (snd s) (doc_list (fst (snd (run_op k (OpReadDocs c) s))))
     <> None.
Proof. destruct k; apply read_docs_failure. Qed.

Lemma write_docs_success s s' :
  ElsProfile.write_docs s = (Return true, s') ->
  nonempty (doc_list (fst s)) = true.
Proof.
  destruct s as [p w]. unfold ElsProfile.write_docs. intros H.
  apply bind_return_inv in H as (p0 & s0 & Hself & H).
  injection Hself as <- <-.
  destruct (truthy (doc_list p)) eqn:Ht; [| discriminate H].
  apply bind_return_inv in H as ([] & s1 & _ & H).
  apply bind_return_inv in H as (d0 & s2 & Hd0 & H).
  apply lift_return_inv in Hd0 as [Hd0 _]. clear H.
  unfold nonempty. cbn [fst]. destruct (doc_list p) as [| | | t | l |];
    simpl in *; try discriminate.
  - destruct t; [discriminate | reflexivity].
  - destruct l; [discriminate | reflexivity].
Qed.

(** One call: a document list that is non-empty after it was non-empty
    before it, or the call is a [read_docs] that stored it. *)
Lemma nonempty_step k o s :
  nonempty (doc_list (fst (snd (run_op k o s)))) = true ->
  nonempty (doc_list (fst s)) = true \/ stores_documents k o s.
Proof.
  intros H.
  assert (Hcases : (exists c, o = OpReadDocs c) \/ (forall c, o <> OpReadDocs c)).
  { destruct o; try (right; discriminate). left; eauto. }
  destruct Hcases as [[c ->] | Ho].
  - destruct (fst (run_op k (OpReadDocs c) s)) as [[|] | e] eqn:Hr.
    + right. exists c. auto.
    + destruct (read_docs_failure_op k c s) as [E | [E | E]];
        [rewrite Hr; discriminate | | |].
      * left. rewrite <- E. exact H.
      * unfold nonempty in H. rewrite E in H. discriminate H.
      * right. exists c. auto.
    + destruct (read_docs_failure_op k c s) as [E | [E | E]];
        [rewrite Hr; discriminate | | |].
      * left. rewrite <- E. exact H.
      * unfold nonempty in H. rewrite E in H. discriminate H.
      * right. exists c. auto.
  - left. unfold doc_list in *. rewrite <- (keeps_other_ops k o Ho s). exact H.
Qed.

Lemma run_ops_cons k o r s :
  snd (run_ops k (o :: r) s) = snd (run_ops k r (snd (run_op k o s))).
Proof.
  cbn [run_ops]. destruct (run_op k o s) as [res s1]. cbn [snd].
  destruct (run_ops k r s1) as [tr s2]. reflexivity.
Qed.

(** A sequence of calls: a document list that is non-empty after it was
    non-empty before it, or one call of the sequence stored it. *)
Lemma nonempty_origin k ops :
  forall s,
    nonempty (doc_list (fst (snd (run_ops k ops s)))) = true ->
    nonempty (doc_list (fst s)) = true
    \/ exists ops1 o ops2,
         ops = ops1 ++ o :: ops2
         /\ stores_documents k o (snd (run_ops k ops1 s)).
Proof.
  induction ops as [| o r IH]; intros s H; [left; exact H |].
  rewrite run_ops_cons in H. destruct (IH _ H) as [H1 | (ops1 & o' & ops2 & -> & Hst)].
  - destruct (nonempty_step k o s H1) as [H0 | Hst]; [left; exact H0 |].
    right. exists [], o, r. split; [reflexivity | exact Hst].
  - right. exists (o :: ops1), o', ops2. split; [reflexivity |].
    rewrite run_ops_cons. exact Hst.
Qed.

(** No call changes what building a frame raises. *)
Lemma exec_request_frames c url :
  preserves the_frames (in_world (exec_request c url)).
Proof. intros [p w]. reflexivity. Qed.

Lemma build_frame_frames docs : preserves the_frames (in_world (build_frame docs)).
Proof.
  intros [p w]. unfold in_world, build_frame. simpl.
  destruct (frame_error w docs); reflexivity.
Qed.

Lemma fs_open_w_frames path : preserves the_frames (in_world (fs_open_w path)).
Proof. intros [p w]. reflexivity. Qed.

Lemma fs_write_frames path text :
  preserves the_frames (in_world (fs_write path text)).
Proof. intros [p w]. reflexivity. Qed.

Ltac frames :=
  preserves_steps;
  first [ apply exec_request_frames | apply build_frame_frames
        | apply fs_open_w_frames | apply fs_write_frames ].

Lemma read_docs_frames pt arg : preserves the_frames (ElsProfile.read_docs pt arg).
Proof. unfold ElsProfile.read_docs. frames. Qed.

Lemma set_coredata_frames k v : preserves the_frames (ElsAuthor.set_coredata k v).
Proof. unfold ElsAuthor.set_coredata. preserves_steps. Qed.

Lemma set_toplevel_frames k v : preserves the_frames (ElsAuthor.set_toplevel k v).
Proof. unfold ElsAuthor.set_toplevel. preserves_steps. Qed.

Lemma read_metrics_frames arg : preserves the_frames (ElsAuthor.read_metrics arg).
Proof.
  unfold ElsAuthor.read_metrics.
  pose proof set_coredata_frames. pose proof set_toplevel_frames.
  preserves_steps; auto; apply exec_request_frames.
Qed.

Lemma write_docs_frames : preserves the_frames ElsProfile.write_docs.
Proof. unfold ElsProfile.write_docs. frames. Qed.

Lemma read_frames pt arg : preserves the_frames (ElsProfile.read pt arg).
Proof.
  intros [p w]. unfold the_frames, ElsProfile.read, ElsEntity.read. run.
  destruct arg as [c |]; [| destruct (_client (entity p)) as [c |]];
    simpl; try reflexivity;
    destruct (respond c (requests w) (_uri (entity p))) as [resp | e]; simpl;
    try (destruct (is_transport e); reflexivity);
    destruct (py_getitem_key resp pt) as [payload | e]; simpl;
    try (destruct (is_transport e)); reflexivity.
Qed.

Lemma run_op_frames k o : preserves the_frames (run_op k o).
Proof.
  destruct o as [c | c | c |]; destruct k; simpl.
  - unfold ElsAuthor.read.
    pose proof (read_frames ElsAuthor._payload_type c). preserves_steps; auto.
  - unfold ElsAffil.read.
    pose proof (read_frames ElsAffil._payload_type c). preserves_steps; auto.
  - apply read_docs_frames.
  - apply read_docs_frames.
  - apply read_metrics_frames.
  - apply preserves_raise.
  - apply write_docs_frames.
  - apply write_docs_frames.
Qed.

(** Where every frame is built, a document list that is non-empty after a
    sequence of calls was non-empty before it, or a [read_docs] of the
    sequence returned true. *)
Lemma nonempty_run_ops k ops :
  forall s,
    (forall v, frame_error (snd s) v = None) ->
    nonempty (doc_list (fst (snd (run_ops k ops s)))) = true ->
    nonempty (doc_list (fst s)) = true
    \/ exists c, In (OpReadDocs c, Return true) (fst (run_ops k ops s)).
Proof.
  induction ops as [| o r IH]; intros s Hw; simpl; [auto |].
  pose proof (run_op_frames k o s) as Hfr. unfold the_frames in Hfr.
  destruct (run_op k o s) as [res s1] eqn:Hop. cbn [snd] in Hfr.
  assert (Hw1 : forall v, frame_error (snd s1) v = None)
    by (intros v; rewrite Hfr; apply Hw).
  specialize (IH s1 Hw1). destruct (run_ops k r s1) as [tr s2]. simpl in *.
  intros H. destruct (IH H) as [H1 | [c Hin]].
  - assert (H1' : nonempty (doc_list (fst (snd (run_op k o s)))) = true)
      by (rewrite Hop; exact H1).
    destruct (nonempty_step k o s H1') as [H0 | (c & -> & _ & [Hres | Hf])];
      [auto | |].
    + right. exists c. left. rewrite Hop in Hres. simpl in Hres. subst.
      reflexivity.
    + destruct Hf. apply Hw.
  - right. exists c. right. exact Hin.
Qed.

Lemma construct_doc_list k u id p :
  construct k u id = Return p -> doc_list p = PNone.
Proof.
  destruct k; unfold construct, ElsAuthor.__init__, ElsAffil.__init__;
    destruct (str_truthy u), (ident_truthy id); simpl; intros H;
    try discriminate; injection H as <-; reflexivity.
Qed.

(** A [read_docs] that does not succeed can change the document list: on an
    answer whose [entry] is a number the number is stored, then taking its
    length raises [TypeError]. *)
Lemma failed_read_docs_changes_doc_list :
  fst (ElsAuthor.read_docs
         (Some (answering (PDict [("search-results", PDict [("entry", PInt 5)])])))
         (author0, world0)) = Raise TypeError
  /\ doc_list author0 = PNone
  /\ doc_list (fst (snd (ElsAuthor.read_docs
         (Some (answering (PDict [("search-results", PDict [("entry", PInt 5)])])))
         (author0, world0)))) = PInt 5.
Proof. repeat split. Qed.



(* ===================================================================== *)
(** ** Writing the documents and reading them back *)
(* ===================================================================== *)

#[local] Arguments String.append !s1 s2 : simpl nomatch.

Lemma app_assoc_s (a b c : string) : (a +:+ b) +:+ c = a +:+ (b +:+ c).
Proof. induction a as [| x a IH]; simpl; [reflexivity | rewrite IH; reflexivity]. Qed.

Lemma digit_char_digit (d : Z) :
  (0 <= d < 10)%Z ->
  is_digit (digit_char d) = true /\ digit_val (digit_char d) = d.
Proof.
  intros H.
  assert (E : (d = 0 \/ d = 1 \/ d = 2 \/ d = 3 \/ d = 4 \/ d = 5 \/ d = 6
               \/ d = 7 \/ d = 8 \/ d = 9)%Z) by lia.
  repeat (destruct E as [-> | E]; [split; reflexivity |]).
  subst. split; reflexivity.
Qed.

Lemma pow10_step (f : nat) (n : Z) :
  (0 <= n < 10 ^ Z.of_nat (S (S f)))%Z -> (0 <= n / 10 < 10 ^ Z.of_nat (S f))%Z.
Proof.
  intros Hn. split; [apply Z.div_pos; lia |].
  apply Z.div_lt_upper_bound; [lia |].
  rewrite (Nat2Z.inj_succ (S f)), Z.pow_succ_r in Hn by lia. lia.
Qed.

Lemma parse_digits_one (d acc : Z) (rest : string) :
  (0 <= d < 10)%Z ->
  parse_digits acc (String (digit_char d) rest) = parse_digits (acc * 10 + d)%Z rest.
Proof.
  intros H. destruct (digit_char_digit d H) as [Hd Hv].
  cbn [parse_digits]. rewrite Hd, Hv. reflexivity.
Qed.

Lemma parse_digits_digits_of (f : nat) :
  forall (n acc : Z) (rest : string),
    (0 <= n < 10 ^ Z.of_nat (S f))%Z ->
    exists k : Z,
      parse_digits acc (digits_of f n +:+ rest)
      = parse_digits (acc * 10 ^ k + n)%Z rest /\ (0 <= k)%Z.
Proof.
  induction f as [| f IH]; intros n acc rest Hn.
  - change (10 ^ Z.of_nat 1)%Z with 10%Z in Hn.
    cbn [digits_of]. change (String (digit_char n) "" +:+ rest) with (String (digit_char n) rest).
    rewrite parse_digits_one by lia.
    exists 1%Z. split; [| lia]. f_equal.
  - cbn [digits_of]. destruct (n <? 10)%Z eqn:E.
    + apply Z.ltb_lt in E.
      change (String (digit_char n) "" +:+ rest) with (String (digit_char n) rest).
      rewrite parse_digits_one by lia.
      exists 1%Z. split; [| lia]. f_equal.
    + apply Z.ltb_ge in E. rewrite app_assoc_s.
      change (String (digit_char (n mod 10)) "" +:+ rest)
        with (String (digit_char (n mod 10)) rest).
      destruct (IH (n / 10)%Z acc (String (digit_char (n mod 10)) rest)
                  (pow10_step f n Hn)) as (k & -> & Hk).
      rewrite parse_digits_one by (apply Z.mod_pos_bound; lia).
      exists (k + 1)%Z. split; [| lia]. f_equal.
      rewrite Z.pow_add_r by lia.
      pose proof (Z.div_mod n 10 ltac:(lia)) as Hdm.
      change (10 ^ 1)%Z with 10%Z.
      set (q := (n / 10)%Z) in *. set (m := (n mod 10)%Z) in *.
      set (P := (10 ^ k)%Z). nia.
Qed.

Lemma app_nil_r_s (a : string) : a +:+ "" = a.
Proof. induction a as [| x a IH]; simpl; [reflexivity | rewrite IH; reflexivity]. Qed.

Lemma length_app_s (a b : string) :
  String.length (a +:+ b) = String.length a + String.length b.
Proof. induction a as [| x a IH]; simpl; [reflexivity | rewrite IH; reflexivity]. Qed.

Lemma skip_ws_all_ws (sp t : string) :
  all_ws sp = true -> skip_ws (sp +:+ t) = skip_ws t.
Proof.
  induction sp as [| c r IH]; simpl; [reflexivity |].
  intros H. apply andb_true_iff in H as [Hc Hr]. rewrite Hc. exact (IH Hr).
Qed.

Lemma digits_of_zero (f : nat) : digits_of f 0 = "0".
Proof. destruct f; reflexivity. Qed.

Lemma digit_char_nonzero (d : Z) :
  (1 <= d < 10)%Z -> Ascii.eqb (digit_char d) "0" = false.
Proof.
  intros H.
  assert (E : (d = 1 \/ d = 2 \/ d = 3 \/ d = 4 \/ d = 5 \/ d = 6
               \/ d = 7 \/ d = 8 \/ d = 9)%Z) by lia.
  repeat (destruct E as [-> | E]; [reflexivity |]).
  subst. reflexivity.
Qed.

Lemma digits_of_head (f : nat) :
  forall n : Z,
    (1 <= n < 10 ^ Z.of_nat (S f))%Z ->
    exists c r, digits_of f n = String c r
                /\ is_digit c = true /\ Ascii.eqb c "0" = false.
Proof.
  induction f as [| f IH]; intros n Hn.
  - change (10 ^ Z.of_nat 1)%Z with 10%Z in Hn. cbn [digits_of].
    exists (digit_char n), "". split; [reflexivity |].
    split; [apply digit_char_digit; lia | apply digit_char_nonzero; lia].
  - cbn [digits_of]. destruct (n <? 10)%Z eqn:E.
    + apply Z.ltb_lt in E. exists (digit_char n), "". split; [reflexivity |].
      split; [apply digit_char_digit; lia | apply digit_char_nonzero; lia].
    + apply Z.ltb_ge in E.
      assert (Hq : (1 <= n / 10 < 10 ^ Z.of_nat (S f))%Z).
      { split; [apply Z.div_le_lower_bound; lia |].
        apply (pow10_step f n). lia. }
      destruct (IH _ Hq) as (c & r & -> & Hc & Hz).
      exists c, (r +:+ String (digit_char (n mod 10)) ""). auto.
Qed.

Lemma log2_fuel (n : Z) :
  (0 <= n)%Z -> (0 <= n < 10 ^ Z.of_nat (S (Z.to_nat (Z.log2 n))))%Z.
Proof.
  intros Hn. split; [exact Hn |].
  rewrite Nat2Z.inj_succ, Z2Nat.id by apply Z.log2_nonneg.
  destruct (Z.eq_dec n 0%Z) as [-> | Hnz].
  - reflexivity.
  - pose proof (Z.log2_spec n ltac:(lia)) as [_ H].
    apply (Z.lt_le_trans _ _ _ H).
    apply Z.pow_le_mono_l. pose proof (Z.log2_nonneg n). lia.
Qed.

Lemma parse_digits_delim (acc : Z) (rest : string) :
  delim rest = true -> parse_digits acc rest = (acc, rest).
Proof.
  destruct rest as [| c r]; [reflexivity |]. cbn [delim parse_digits].
  intros H. destruct (is_digit c) eqn:E; [| reflexivity].
  destruct c as [[] [] [] [] [] [] [] []]; discriminate.
Qed.

Lemma starts_fraction_delim (rest : string) :
  delim rest = true -> starts_fraction rest = false.
Proof.
  destruct rest as [| c r]; [reflexivity |]. cbn [delim starts_fraction].
  destruct c as [[] [] [] [] [] [] [] []]; (discriminate || reflexivity).
Qed.

Lemma parse_nat_lit_digits (n : Z) (rest : string) :
  (0 <= n)%Z -> delim rest = true ->
  parse_nat_lit (digits_of (Z.to_nat (Z.log2 n)) n +:+ rest) = Some (n, rest).
Proof.
  intros Hn Hrest. destruct (Z.eq_dec n 0%Z) as [-> | Hnz].
  - rewrite digits_of_zero. reflexivity.
  - pose proof (log2_fuel n Hn) as Hf.
    destruct (digits_of_head (Z.to_nat (Z.log2 n)) n ltac:(lia))
      as (c & r & E & Hc & Hz).
    destruct (parse_digits_digits_of _ n 0 rest Hf) as (k & Hp & Hk).
    rewrite E in *. change (String c r +:+ rest) with (String c (r +:+ rest)) in *.
    cbn [parse_nat_lit]. rewrite Hz, Hc.
    cbn [parse_digits] in Hp. rewrite Hc in Hp.
    change (0 * 10 + digit_val c)%Z with (digit_val c) in Hp.
    rewrite Hp. rewrite parse_digits_delim by exact Hrest.
    repeat f_equal; try lia.
Qed.

Lemma digit_not_minus (c : ascii) (r : string) :
  is_digit c = true ->
  parse_number (String c r)
  = match parse_nat_lit (String c r) with
    | Some (z, rest) =>
        if starts_fraction rest then None else Some (PInt z, rest)
    | None => None
    end.
Proof.
  intros H. destruct c as [[] [] [] [] [] [] [] []]; try discriminate H;
    reflexivity.
Qed.

Lemma parse_number_str_of_Z (z : Z) (rest : string) :
  delim rest = true ->
  parse_number (str_of_Z z +:+ rest) = Some (PInt z, rest).
Proof.
  intros Hrest. unfold str_of_Z. destruct (z <? 0)%Z eqn:E.
  - apply Z.ltb_lt in E.
    change (String "-" ?d +:+ rest) with (String "-" (d +:+ rest)).
    unfold parse_number.
    rewrite (parse_nat_lit_digits (- z) rest ltac:(lia) Hrest).
    rewrite (starts_fraction_delim rest Hrest). repeat f_equal; try lia.
  - apply Z.ltb_ge in E. pose proof (log2_fuel z E) as Hf.
    pose proof (parse_nat_lit_digits z rest E Hrest) as Hp.
    destruct (Z.eq_dec z 0%Z) as [-> | Hnz].
    + rewrite digits_of_zero.
      change ("0" +:+ rest) with (String "0" rest).
      rewrite digit_not_minus by reflexivity.
      cbn [parse_nat_lit Ascii.eqb]. simpl.
      rewrite (starts_fraction_delim rest Hrest). reflexivity.
    + destruct (digits_of_head (Z.to_nat (Z.log2 z)) z ltac:(lia))
        as (c & r & Ed & Hc & Hz).
      rewrite Ed in *.
      change (String c r +:+ rest) with (String c (r +:+ rest)) in *.
      rewrite (digit_not_minus c _ Hc), Hp, (starts_fraction_delim rest Hrest).
      reflexivity.
Qed.

(** *** Strings *)

Lemma parse_str_escape_char (c : ascii) (t : string) :
  parse_str (escape_char c +:+ t) = push c (parse_str t).
Proof. destruct c as [[] [] [] [] [] [] [] []]; reflexivity. Qed.

Lemma parse_str_escape_str (s rest : string) :
  parse_str (escape_str s +:+ String dquote rest) = Some (s, rest).
Proof.
  induction s as [| c s IH].
  - reflexivity.
  - cbn [escape_str]. rewrite app_assoc_s, parse_str_escape_char, IH.
    reflexivity.
Qed.

Lemma dumps_str_app (s rest : string) :
  dumps_str s +:+ rest = String dquote (escape_str s +:+ String dquote rest).
Proof.
  unfold dumps_str.
  change (String dquote ?a +:+ rest) with (String dquote (a +:+ rest)).
  rewrite app_assoc_s. reflexivity.
Qed.

(** *** Values *)

Lemma dumps_list (l : list pyval) :
  json_dumps (PList l) = String "[" (items_text " " l +:+ "]").
Proof.
  cbn [json_dumps]. change ("[" +:+ ?a) with (String "[" a). do 2 f_equal.
  induction l as [| x r IH]; [reflexivity |].
  cbn [items_text]. rewrite <- IH. destruct r; reflexivity.
Qed.

Lemma dumps_dict (d : list (string * pyval)) :
  json_dumps (PDict d) = String "{" (members_text d +:+ "}").
Proof.
  reflexivity.
Qed.

Lemma str_of_Z_head (z : Z) :
  exists c r, str_of_Z z = String c r
              /\ (is_digit c = true \/ c = "-"%char).
Proof.
  unfold str_of_Z. destruct (z <? 0)%Z eqn:E.
  - eauto.
  - apply Z.ltb_ge in E. destruct (Z.eq_dec z 0%Z) as [-> | Hnz].
    + exists "0"%char, "". split; [reflexivity | left; reflexivity].
    + pose proof (log2_fuel z E).
      destruct (digits_of_head (Z.to_nat (Z.log2 z)) z ltac:(lia))
        as (c & r & Ed & Hc & _).
      exists c, r. auto.
Qed.

Lemma parse_value_number (f : nat) (sp : string) (c : ascii) (r : string) :
  all_ws sp = true ->
  is_digit c = true \/ c = "-"%char ->
  parse_value (S f) (sp +:+ String c r) = parse_number (String c r).
Proof.
  intros Hsp Hc. cbn [parse_value]. rewrite (skip_ws_all_ws _ _ Hsp).
  destruct Hc as [Hc | ->]; [| reflexivity].
  destruct c as [[] [] [] [] [] [] [] []]; try discriminate Hc; reflexivity.
Qed.

Lemma dumps_nonempty (v : pyval) : 1 <= String.length (json_dumps v).
Proof.
  destruct v as [| [] | z | s | l | d];
    try (rewrite dumps_list || rewrite dumps_dict); try (simpl; lia).
  cbn [json_dumps]. destruct (str_of_Z_head z) as (c & r & -> & _).
  simpl. lia.
Qed.

Lemma dict_set_fresh k v (acc : list (string * pyval)) :
  existsb (String.eqb k) (map fst acc) = false ->
  dict_set k v acc = acc ++ [(k, v)].
Proof.
  induction acc as [| [k0 v0] r IH]; simpl; [reflexivity |].
  intros H. apply orb_false_iff in H as [H1 H2]. rewrite H1, (IH H2).
  reflexivity.
Qed.

Lemma dict_of_pairs_acc (kvs acc : list (string * pyval)) :
  distinct (map fst acc ++ map fst kvs) = true ->
  fold_left (fun d kv => dict_set (fst kv) (snd kv) d) kvs acc = acc ++ kvs.
Proof.
  revert acc. induction kvs as [| [k v] r IH]; intros acc H; simpl.
  - rewrite app_nil_r. reflexivity.
  - assert (Hk : existsb (String.eqb k) (map fst acc) = false).
    { clear IH. induction acc as [| [k0 v0] a IHa]; [reflexivity |].
      simpl in H |- *. apply andb_true_iff in H as [H1 H2].
      rewrite (IHa H2), orb_false_r.
      apply negb_true_iff in H1. rewrite existsb_app in H1.
      apply orb_false_iff in H1 as [_ H1]. simpl in H1.
      apply orb_false_iff in H1 as [H1 _].
      rewrite String.eqb_sym. exact H1. }
    rewrite (dict_set_fresh _ _ _ Hk), IH.
    + rewrite <- app_assoc. reflexivity.
    + rewrite map_app, <- app_assoc. exact H.
Qed.

Lemma dict_of_pairs_distinct (d : list (string * pyval)) :
  distinct (map fst d) = true -> dict_of_pairs d = d.
Proof. intros H. unfold dict_of_pairs. rewrite dict_of_pairs_acc; auto. Qed.

Lemma dumps_head (x : pyval) :
  exists c t, json_dumps x = String c t
              /\ is_ws c = false /\ Ascii.eqb c "]" = false.
Proof.
  destruct x as [| [] | z | s | l | d];
    try (eexists; eexists; split; [reflexivity | split; reflexivity]).
  cbn [json_dumps]. destruct (str_of_Z_head z) as (c & r & -> & [Hc | ->]).
  - exists c, r. split; [reflexivity |].
    destruct c as [[] [] [] [] [] [] [] []]; try discriminate Hc;
      split; reflexivity.
  - exists "-"%char, r. repeat split.
Qed.

Lemma closes_dumps (x : pyval) (t : string) :
  closes "]" (json_dumps x +:+ t) = None.
Proof.
  destruct (dumps_head x) as (c & r & -> & Hws & Hc).
  unfold closes. change (String c r +:+ t) with (String c (r +:+ t)).
  cbn [skip_ws]. rewrite Hws, Hc. reflexivity.
Qed.

Lemma parse_value_string (f : nat) (sp t : string) :
  all_ws sp = true ->
  parse_value (S f) (sp +:+ String dquote t)
  = match parse_str t with
    | Some (s, rest) => Some (PStr s, rest)
    | None => None
    end.
Proof. intros H. cbn [parse_value]. rewrite (skip_ws_all_ws _ _ H). reflexivity. Qed.

Lemma parse_value_list (f : nat) (sp t : string) :
  all_ws sp = true ->
  parse_value (S f) (sp +:+ String "[" t)
  = match closes "]" t with
    | Some rest => Some (PList [], rest)
    | None => match parse_elems f t with
              | Some (vs, rest) => Some (PList vs, rest)
              | None => None
              end
    end.
Proof. intros H. cbn [parse_value]. rewrite (skip_ws_all_ws _ _ H). reflexivity. Qed.

Lemma parse_value_dict (f : nat) (sp t : string) :
  all_ws sp = true ->
  parse_value (S f) (sp +:+ String "{" t)
  = match closes "}" t with
    | Some rest => Some (PDict [], rest)
    | None => match parse_members f t with
              | Some (kvs, rest) => Some (PDict (dict_of_pairs kvs), rest)
              | None => None
              end
    end.
Proof. intros H. cbn [parse_value]. rewrite (skip_ws_all_ws _ _ H). reflexivity. Qed.

Lemma parse_value_literal (f : nat) (sp lit rest : string) (v : pyval) :
  all_ws sp = true ->
  (lit = "null" /\ v = PNone) \/ (lit = "true" /\ v = PBool true)
  \/ (lit = "false" /\ v = PBool false) ->
  parse_value (S f) (sp +:+ lit +:+ rest) = Some (v, rest).
Proof.
  intros H Hl. cbn [parse_value]. rewrite (skip_ws_all_ws _ _ H).
  destruct Hl as [[-> ->] | [[-> ->] | [-> ->]]]; reflexivity.
Qed.

Lemma roundtrip_elems_step (f : nat) :
  roundtrip_value f -> roundtrip_elems f -> roundtrip_elems (S f).
Proof.
  intros HV HE l sp0 sp rest Hl Hwf Hsp0 Hsp Hlen.
  destruct l as [| x r]; [destruct (Hl eq_refl) |].
  cbn [forallb] in Hwf. apply andb_true_iff in Hwf as [Hx Hr].
  cbn [items_text] in Hlen |- *. rewrite length_app_s in Hlen.
  pose proof (dumps_nonempty x) as Hne.
  rewrite app_assoc_s. cbn [parse_elems].
  destruct r as [| y r'].
  - change ("" +:+ String "]" rest) with (String "]" rest).
    rewrite (HV x sp0 (String "]" rest) Hx Hsp0 eq_refl ltac:(lia)).
    reflexivity.
  - set (tail := items_text sp (y :: r')) in *.
    change (("," +:+ sp +:+ tail) +:+ String "]" rest)
      with (String "," ((sp +:+ tail) +:+ String "]" rest)).
    rewrite (HV x sp0 (String "," ((sp +:+ tail) +:+ String "]" rest))
               Hx Hsp0 eq_refl ltac:(lia)).
    change (skip_ws (String "," ?t)) with (String "," t).
    cbv iota. change (Ascii.eqb "," ",") with true. cbv iota.
    change (String.length ("," +:+ sp +:+ tail))
      with (S (String.length (sp +:+ tail))) in Hlen.
    rewrite length_app_s in Hlen.
    rewrite app_assoc_s. unfold tail in *. clear tail.
    rewrite (HE (y :: r') sp sp rest ltac:(discriminate) Hr Hsp Hsp ltac:(lia)).
    reflexivity.
Qed.

Lemma closes_dquote (sp0 k rest : string) :
  all_ws sp0 = true ->
  closes dquote (sp0 +:+ dumps_str k +:+ rest)
  = Some (escape_str k +:+ String dquote rest).
Proof.
  intros H. unfold closes. rewrite (skip_ws_all_ws _ _ H), dumps_str_app.
  reflexivity.
Qed.

Lemma roundtrip_members_step (f : nat) :
  roundtrip_value f -> roundtrip_members f -> roundtrip_members (S f).
Proof.
  intros HV HM d sp0 rest Hd Hwf Hsp0 Hlen.
  destruct d as [| [k x] r]; [destruct (Hd eq_refl) |].
  cbn [forallb snd] in Hwf. apply andb_true_iff in Hwf as [Hx Hr].
  cbn [members_text] in Hlen |- *.
  pose proof (dumps_nonempty x) as Hne.
  rewrite !length_app_s in Hlen.
  change (String.length ": ") with 2 in Hlen.
  cbn [parse_members]. rewrite !app_assoc_s.
  rewrite (closes_dquote _ _ _ Hsp0), parse_str_escape_str.
  change (closes ":" (": " +:+ ?t)) with (Some (" " +:+ t)). cbv iota.
  destruct r as [| kv r'].
  - change ("" +:+ String "}" rest) with (String "}" rest).
    rewrite (HV x " " (String "}" rest) Hx eq_refl eq_refl ltac:(lia)).
    reflexivity.
  - set (tail := members_text (kv :: r')) in *.
    change ((", " +:+ tail) +:+ String "}" rest)
      with (String "," (" " +:+ tail +:+ String "}" rest)).
    rewrite (HV x " " (String "," (" " +:+ tail +:+ String "}" rest))
               Hx eq_refl eq_refl ltac:(lia)).
    change (skip_ws (String "," ?t)) with (String "," t).
    cbv iota. change (Ascii.eqb "," ",") with true. cbv iota.
    change (String.length (", " +:+ tail)) with (S (S (String.length tail)))
      in Hlen.
    unfold tail in *. clear tail.
    rewrite (HM (kv :: r') " " rest ltac:(discriminate) Hr eq_refl ltac:(lia)).
    reflexivity.
Qed.

Lemma roundtrip_value_step (f : nat) :
  roundtrip_elems f -> roundtrip_members f -> roundtrip_value (S f).
Proof.
  intros HE HM v sp rest Hwf Hsp Hrest Hlen.
  destruct v as [| b | z | s | l | d].
  - apply parse_value_literal; auto.
  - destruct b; apply parse_value_literal; auto.
  - cbn [json_dumps].
    pose proof (parse_number_str_of_Z z rest Hrest) as Hp.
    destruct (str_of_Z_head z) as (c & r & E & Hc).
    rewrite E in *. change (String c r +:+ rest) with (String c (r +:+ rest)) in *.
    rewrite (parse_value_number f sp c _ Hsp Hc). exact Hp.
  - cbn [json_dumps]. rewrite dumps_str_app, (parse_value_string f _ _ Hsp).
    rewrite parse_str_escape_str. reflexivity.
  - rewrite dumps_list in Hlen |- *.
    change (String "[" ?a +:+ rest) with (String "[" (a +:+ rest)).
    rewrite (parse_value_list f _ _ Hsp), app_assoc_s.
    change ("]" +:+ rest) with (String "]" rest).
    destruct l as [| x r]; [reflexivity |].
    assert (Hc : closes "]" (items_text " " (x :: r) +:+ String "]" rest) = None).
    { cbn [items_text]. rewrite app_assoc_s. apply closes_dumps. }
    rewrite Hc.
    cbn [String.length] in Hlen. rewrite length_app_s in Hlen.
    change (String.length "]") with 1 in Hlen.
    pose proof (HE (x :: r) "" " " rest ltac:(discriminate) Hwf eq_refl eq_refl
                  ltac:(lia)) as H.
    change ("" +:+ ?t) with t in H. rewrite H. reflexivity.
  - rewrite dumps_dict in Hlen |- *.
    change (String "{" ?a +:+ rest) with (String "{" (a +:+ rest)).
    rewrite (parse_value_dict f _ _ Hsp), app_assoc_s.
    change ("}" +:+ rest) with (String "}" rest).
    destruct d as [| [k x] r]; [reflexivity |].
    cbn [wf] in Hwf. apply andb_true_iff in Hwf as [Hkeys Hvals].
    assert (Hc : closes "}" (members_text ((k, x) :: r) +:+ String "}" rest)
                 = None).
    { cbn [members_text]. rewrite !app_assoc_s, dumps_str_app. reflexivity. }
    rewrite Hc.
    cbn [String.length] in Hlen. rewrite length_app_s in Hlen.
    change (String.length "}") with 1 in Hlen.
    pose proof (HM ((k, x) :: r) "" rest ltac:(discriminate) Hvals eq_refl
                  ltac:(lia)) as H.
    change ("" +:+ ?t) with t in H. rewrite H.
    rewrite (dict_of_pairs_distinct _ Hkeys). reflexivity.
Qed.

Lemma roundtrip_all (f : nat) :
  roundtrip_value f /\ roundtrip_elems f /\ roundtrip_members f.
Proof.
  induction f as [| f (HV & HE & HM)].
  - repeat split.
    + intros v sp rest _ _ _ H. pose proof (dumps_nonempty v). lia.
    + intros l sp0 sp rest _ _ _ _ H. lia.
    + intros d sp0 rest _ _ _ H. lia.
  - split; [apply roundtrip_value_step; assumption |].
    split; [apply roundtrip_elems_step; assumption |].
    apply roundtrip_members_step; assumption.
Qed.

(** [json.loads(json.dumps(v))] is [v]. *)
Lemma loads_dumps (v : pyval) :
  wf v = true -> json_loads (json_dumps v) = Some v.
Proof.
  intros Hwf. unfold json_loads.
  pose proof (proj1 (roundtrip_all (S (String.length (json_dumps v))))
                v "" "" Hwf eq_refl eq_refl ltac:(lia)) as H.
  change ("" +:+ json_dumps v +:+ "") with (json_dumps v +:+ "") in H.
  rewrite app_nil_r_s in H. rewrite H. reflexivity.
Qed.

(** *** The file that [write_docs] writes *)

Lemma items_text_tail (d : pyval) (ds : list pyval) :
  items_text "" (d :: ds) = json_dumps d +:+ tail_text ds.
Proof.
  revert d. induction ds as [| x r IH]; intros d; [reflexivity |].
  change (items_text "" (d :: x :: r))
    with (json_dumps d +:+ "," +:+ "" +:+ items_text "" (x :: r)).
  rewrite IH. reflexivity.
Qed.

Lemma loads_docs_text (l : list pyval) :
  l <> [] -> forallb wf l = true ->
  json_loads ("[" +:+ items_text "" l +:+ "]") = Some (PList l).
Proof.
  intros Hl Hwf.
  change ("[" +:+ items_text "" l +:+ "]")
    with (String "[" (items_text "" l +:+ String "]" "")).
  unfold json_loads. cbn [String.length].
  set (t := items_text "" l +:+ String "]" "").
  pose proof (parse_value_list (S (String.length t)) "" t eq_refl) as Hpv.
  change ("" +:+ ?u) with u in Hpv. rewrite Hpv. clear Hpv.
  assert (Hc : closes "]" t = None).
  { unfold t. destruct l as [| x r]; [destruct (Hl eq_refl) |].
    cbn [items_text]. rewrite app_assoc_s. apply closes_dumps. }
  rewrite Hc.
  pose proof (proj1 (proj2 (roundtrip_all (S (String.length t))))
                l "" "" "" Hl Hwf eq_refl eq_refl) as H.
  change ("" +:+ ?u) with u in H. fold t in H.
  rewrite H; [reflexivity |].
  unfold t. rewrite length_app_s. simpl. lia.
Qed.

Lemma write_loop (p : Profile) (path : string) (rest : list pyval) :
  forall (pre : list pyval) (w : World) (c0 : string),
    doc_list p = PList (pre ++ rest) ->
    files w !! path = Some c0 ->
    exists w',
      for_each (seq (length pre) (length rest)) (write_body path) (p, w)
      = (Return tt, (p, w'))
      /\ files w' !! path = Some (c0 +:+ tail_text rest)
      /\ requests w' = requests w
      /\ (forall q, q <> path -> files w' !! q = files w !! q).
Proof.
  induction rest as [| x r IH]; intros pre w c0 Hl Hc.
  - exists w. rewrite app_nil_r_s. repeat split; auto.
  - cbn [length seq for_each].
    destruct (IH (pre ++ [x]) (append_file path ("," +:+ json_dumps x) w)
                (c0 +:+ "," +:+ json_dumps x)) as (w' & Hrun & Hf & Hreq & Hoth).
    { rewrite <- app_assoc. exact Hl. }
    { unfold append_file, fs_write. cbn [snd files]. rewrite Hc.
      apply lookup_insert_eq. }
    exists w'. rewrite length_app, Nat.add_1_r in Hrun.
    split; [| split; [| split]].
    + unfold bind at 1. unfold write_body at 1. run. rewrite Hl.
      cbn [py_getitem_idx]. rewrite nth_error_app2 by lia.
      rewrite Nat.sub_diag. cbn [nth_error]. exact Hrun.
    + rewrite Hf. cbn [tail_text]. rewrite !app_assoc_s. reflexivity.
    + rewrite Hreq. reflexivity.
    + intros q Hq. rewrite (Hoth q Hq). unfold append_file, fs_write.
      cbn [snd files]. apply lookup_insert_ne. congruence.
Qed.

Lemma write_docs_list (p : Profile) (w : World) (d : pyval) (ds : list pyval) :
  doc_list p = PList (d :: ds) ->
  exists w',
    ElsProfile.write_docs (p, w) = (Return true, (p, w'))
    /\ files w' !! ElsProfile.dump_path (uri p)
       = Some ("[" +:+ items_text "" (d :: ds) +:+ "]")
    /\ requests w' = requests w
    /\ (forall q, q <> ElsProfile.dump_path (uri p) ->
                  files w' !! q = files w !! q).
Proof.
  intros Hl. set (path := ElsProfile.dump_path (uri p)).
  set (w1 := append_file path ("[" +:+ json_dumps d)
               (mkWorld (requests w) (<[path := ""]> (files w))
                  (frame_error w))).
  destruct (write_loop p path ds [d] w1 ("[" +:+ json_dumps d) Hl)
    as (w2 & Hrun & Hf & Hreq & Hoth).
  { unfold w1, append_file, fs_write. cbn [snd files].
    rewrite !lookup_insert_eq. reflexivity. }
  exists (append_file path "]" w2).
  split; [| split; [| split]].
  - unfold ElsProfile.write_docs.
    unfold bind at 1. unfold self at 1. cbn [fst]. rewrite Hl.
    cbn [truthy]. cbv iota.
    unfold bind at 1. unfold in_world at 1, fs_open_w at 1. cbn [fst snd].
    unfold bind at 1. unfold lift at 1. cbn [py_getitem_idx nth_error].
    unfold bind at 1. unfold in_world at 1. cbn [fst snd].
    unfold bind at 1. unfold lift at 1. cbn [py_len length].
    rewrite Nat.sub_succ, Nat.sub_0_r.
    unfold bind at 1.
    match goal with
    | |- ?L = _ =>
        change L with
          (match for_each (seq (length [d]) (length ds)) (write_body path)
                   (p, w1) with
           | (Return _, s0) =>
               (let* _ := in_world (fs_write path "]") in ret true) s0
           | (Raise e, s0) => (Raise e, s0)
           end)
    end.
    rewrite Hrun. reflexivity.
  - unfold append_file, fs_write. cbn [snd files]. rewrite Hf.
    rewrite lookup_insert_eq, items_text_tail. unfold default. cbn [from_option id].
    rewrite !app_assoc_s. reflexivity.
  - unfold append_file, fs_write. cbn [snd requests]. rewrite Hreq. reflexivity.
  - intros q Hq. unfold append_file at 1, fs_write. cbn [snd files].
    rewrite lookup_insert_ne by congruence. rewrite (Hoth q Hq).
    unfold w1, append_file, fs_write. cbn [snd files].
    rewrite !lookup_insert_ne by congruence. reflexivity.
Qed.

(** C2: [write_docs] on an object whose document list is empty or unset
    returns false and leaves the files as they are; on an object whose
    document list is a non-empty list it returns true and the file at
    ['data/' + quote_plus(uri + '?view=documents') + '.json'] holds a text
    that reads back, as JSON, as that list, element for element in the same
    order; no other file is touched. *)
Theorem write_docs_round_trip (p : Profile) (w : World) :
  (truthy (doc_list p) = false ->
   ElsProfile.write_docs (p, w) = (Return false, (p, w)))
  /\
  (forall d ds,
      doc_list p = PList (d :: ds) -> forallb wf (d :: ds) = true ->
      exists w' content,
        ElsProfile.write_docs (p, w) = (Return true, (p, w'))
        /\ files w' !! ("data/" +:+ quote_plus (uri p +:+ "?view=documents")
                        +:+ ".json") = Some content
        /\ json_loads content = Some (PList (d :: ds))
        /\ (forall q,
               q <> "data/" +:+ quote_plus (uri p +:+ "?view=documents")
                    +:+ ".json" ->
               files w' !! q = files w !! q)).
Proof.
  split.
  - intros Ht. unfold ElsProfile.write_docs. run. rewrite Ht. reflexivity.
  - intros d ds Hl Hwf.
    destruct (write_docs_list p w d ds Hl) as (w' & Hrun & Hf & _ & Hoth).
    exists w', ("[" +:+ items_text "" (d :: ds) +:+ "]").
    split; [exact Hrun |]. split; [exact Hf |].
    split; [apply loads_docs_text; [discriminate | exact Hwf] | exact Hoth].
Qed.

Lemma write_docs_round_trip_witness :
  ElsProfile.write_docs (author0, world0) = (Return false, (author0, world0))
  /\
  exists w' content,
    ElsProfile.write_docs (set_doc_list (PList [doc1; doc2]) author0, world0)
    = (Return true, (set_doc_list (PList [doc1; doc2]) author0, w'))
    /\ files w' !! ("data/" +:+ quote_plus (author_uri +:+ "?view=documents")
                    +:+ ".json") = Some content
    /\ json_loads content = Some (PList [doc1; doc2])
    /\ (forall q,
           q <> "data/" +:+ quote_plus (author_uri +:+ "?view=documents")
                +:+ ".json" ->
           files w' !! q = files world0 !! q).
Proof.
  split.
  - apply (proj1 (write_docs_round_trip author0 world0)). reflexivity.
  - apply (proj2 (write_docs_round_trip
                    (set_doc_list (PList [doc1; doc2]) author0) world0)
                 doc1 [doc2]); reflexivity.
Defined.

(** The file written for the sample author. *)
Example write_docs_sample :
  files (snd (snd (ElsProfile.write_docs
                     (set_doc_list (PList [PInt 1; PStr "a b"; PList []]) author0,
                      world0))))
  !! "data/https%3A%2F%2Fapi.elsevier.com%2Fcontent%2Fauthor%2Fauthor_id%2F7004367821%3Fview%3Ddocuments.json"
  = Some (String "[" (String "1" (String "," (String dquote
        (String "a" (String " " (String "b" (String dquote ",[]]")))))))).
Proof. vm_compute. reflexivity. Qed.

(* ===================================================================== *)
(** ** Further properties of the calls *)
(* ===================================================================== *)

Lemma set_coredata_but_data k v : preserves but_data (ElsAuthor.set_coredata k v).
Proof. unfold ElsAuthor.set_coredata. preserves_steps. Qed.

Lemma set_toplevel_but_data k v : preserves but_data (ElsAuthor.set_toplevel k v).
Proof. unfold ElsAuthor.set_toplevel. preserves_steps. Qed.

(** X7: whatever [read_metrics] is given and however it ends, it changes
    nothing of the object but [data]: [uri], the bound client, [doc_list] and
    the frame are what they were; in particular it never binds the client it
    is given. *)
Theorem read_metrics_keeps_rest (arg : option ElsClient) (s : St) :
  uri (fst (snd (ElsAuthor.read_metrics arg s))) = uri (fst s)
  /\ client (fst (snd (ElsAuthor.read_metrics arg s))) = client (fst s)
  /\ doc_list (fst (snd (ElsAuthor.read_metrics arg s))) = doc_list (fst s)
  /\ docsframe (fst (snd (ElsAuthor.read_metrics arg s))) = docsframe (fst s).
Proof.
  assert (H : preserves but_data (ElsAuthor.read_metrics arg)).
  { unfold ElsAuthor.read_metrics.
    pose proof set_coredata_but_data. pose proof set_toplevel_but_data.
    preserves_steps; auto. }
  specialize (H s). unfold but_data in H. injection H as H1 H2 H3 H4. auto.
Qed.

Lemma write_docs_object : preserves the_object ElsProfile.write_docs.
Proof. unfold ElsProfile.write_docs. preserves_steps. Qed.

Lemma fs_open_w_requests path : preserves the_requests (in_world (fs_open_w path)).
Proof. intros [p w]. reflexivity. Qed.

Lemma fs_write_requests path text :
  preserves the_requests (in_world (fs_write path text)).
Proof. intros [p w]. reflexivity. Qed.

Lemma write_docs_requests : preserves the_requests ElsProfile.write_docs.
Proof.
  unfold ElsProfile.write_docs.
  preserves_steps; (apply fs_open_w_requests || apply fs_write_requests).
Qed.

(** X16: [write_docs] changes nothing but files: the object and the request
    log are what they were, whatever the call returns or raises. *)
Theorem write_docs_touches_files_only (s : St) :
  fst (snd (ElsProfile.write_docs s)) = fst s
  /\ requests (snd (snd (ElsProfile.write_docs s))) = requests (snd s).
Proof.
  split; [apply (write_docs_object s) | apply (write_docs_requests s)].
Qed.

(** *** What [read_metrics] does, step by step *)

Lemma bind_ret_run {S A B} (m : M S A) (f : A -> M S B) s a s1 :
  m s = (Return a, s1) -> bind m f s = f a s1.
Proof. intros H. unfold bind. rewrite H. reflexivity. Qed.

Lemma bind_raise_run {S A B} (m : M S A) (f : A -> M S B) s e s1 :
  m s = (Raise e, s1) -> bind m f s = (Raise e, s1).
Proof. intros H. unfold bind. rewrite H. reflexivity. Qed.

Lemma py_int_raise v e : py_int v = Raise e -> is_transport e = false.
Proof.
  destruct v as [| b | z | s | l | d]; simpl; try (intros H; injection H as <-; reflexivity);
    try discriminate.
  destruct (int_of_str s); [discriminate |].
  intros H; injection H as <-; reflexivity.
Qed.

Lemma int_of_run r v z :
  r = Return v -> py_int v = Return z -> ElsAuthor.int_of r = Return (PInt z).
Proof. intros -> H. unfold ElsAuthor.int_of. rewrite H. reflexivity. Qed.

Lemma coredata_of_run first core k :
  py_getitem_key first "coredata" = Return core ->
  ElsAuthor.coredata_of first k = py_getitem_key core k.
Proof. intros H. unfold ElsAuthor.coredata_of. rewrite H. reflexivity. Qed.

(** The steps of [read_metrics] up to its first write: the request, the
    payload, the containers. *)
Lemma metrics_prologue c p w resp payload first d0 core0
    (k : pyval -> M St (option bool)) :
  respond c (requests w) (metrics_url p) = Return resp ->
  py_getitem_key resp ElsAuthor._payload_type = Return payload ->
  py_getitem_idx payload 0 = Return first ->
  start_containers p d0 core0 ->
  (let* p := self in
   let* c := ret c in
   let* api_response :=
     in_world (exec_request c (uri p +:+ "?field=" +:+ join "," ElsAuthor.fields)) in
   let* payload := lift (py_getitem_key api_response ElsAuthor._payload_type) in
   let* data' := lift (py_getitem_idx payload 0) in
   (if negb (truthy (data p)) then
      update_self (set_data (PDict [])) ;;
      ElsAuthor.set_toplevel "coredata" (PDict [])
    else ret tt) ;;
   k data') (p, w)
  = k first (set_data (PDict d0) p, sent (metrics_url p) w).
Proof.
  intros Hresp Hpay Hfirst Hstart.
  unfold bind at 1. unfold self at 1. cbn [fst].
  unfold bind at 1. unfold ret at 1.
  unfold bind at 1. unfold in_world at 1, exec_request at 1. cbn [fst snd].
  change (uri p +:+ "?field=" +:+ join "," ElsAuthor.fields)
    with (metrics_url p).
  rewrite Hresp.
  unfold bind at 1. unfold lift at 1. rewrite Hpay.
  unfold bind at 1. unfold lift at 1. rewrite Hfirst.
  unfold start_containers in Hstart.
  destruct (truthy (data p)) eqn:Ht; cbn [negb].
  - destruct Hstart as [Hd Hc].
    unfold bind at 1. unfold ret at 1. unfold sent.
    replace (set_data (PDict d0) p) with p; [reflexivity |].
    unfold set_data. rewrite <- Hd. destruct p as [[u cl dt] dl fr]. reflexivity.
  - destruct Hstart as [-> ->]. reflexivity.
Qed.

Lemma set_coredata_chain k v p w d core :
  dict_get "coredata" d = Some (PDict core) ->
  ElsAuthor.set_coredata k v (set_data (PDict d) p, w)
  = (Return tt,
     (set_data (PDict (dict_set "coredata" (PDict (dict_set k v core)) d)) p, w)).
Proof.
  intros Hc.
  rewrite (set_coredata_run k v (set_data (PDict d) p) w d core eq_refl Hc).
  reflexivity.
Qed.

Lemma set_toplevel_chain k v p w d :
  ElsAuthor.set_toplevel k v (set_data (PDict d) p, w)
  = (Return tt, (set_data (PDict (dict_set k v d)) p, w)).
Proof. reflexivity. Qed.

Lemma start_containers_coredata p d0 core0 :
  start_containers p d0 core0 -> dict_get "coredata" d0 = Some (PDict core0).
Proof.
  unfold start_containers. destruct (truthy (data p)); intros [H1 H2];
    [exact H2 | subst; reflexivity].
Qed.

(** A well-formed answer makes [read_metrics] return true. *)
Lemma read_metrics_run c p w resp payload first core ident vc vd vh zc zd zh
    d0 core0 :
  respond c (requests w) (metrics_url p) = Return resp ->
  py_getitem_key resp ElsAuthor._payload_type = Return payload ->
  py_getitem_idx payload 0 = Return first ->
  py_getitem_key first "coredata" = Return core ->
  py_getitem_key core "dc:identifier" = Return ident ->
  py_getitem_key core "citation-count" = Return vc ->
  py_getitem_key core "document-count" = Return vd ->
  py_getitem_key first "h-index" = Return vh ->
  py_int vc = Return zc -> py_int vd = Return zd -> py_int vh = Return zh ->
  start_containers p d0 core0 ->
  ElsAuthor.read_metrics (Some c) (p, w)
  = (Return true,
     (set_data (metrics_written ident zc zd zh d0 core0) p,
      sent (metrics_url p) w)).
Proof.
  intros Hresp Hpay Hfirst Hcore Hid Hvc Hvd Hvh Hzc Hzd Hzh Hstart.
  pose proof (start_containers_coredata _ _ _ Hstart) as Hc0.
  unfold ElsAuthor.read_metrics. unfold bind at 1.
  match goal with
  | |- context [try_except ?b ?c ?h ?s] =>
      assert (H : try_except b c h s
                  = (Return None,
                     (set_data (metrics_written ident zc zd zh d0 core0) p,
                      sent (metrics_url p) w)));
        [| rewrite H; reflexivity]
  end.
  unfold try_except.
  erewrite (metrics_prologue c p w resp payload first d0 core0); try eassumption.
  rewrite !(coredata_of_run first core) by exact Hcore.
  rewrite Hid.
  erewrite (int_of_run _ vc zc Hvc Hzc).
  erewrite (int_of_run _ vd zd Hvd Hzd).
  erewrite (int_of_run _ vh zh Hvh Hzh).
  unfold bind at 1. unfold lift at 1.
  unfold bind at 1. rewrite (set_coredata_chain _ _ _ _ _ _ Hc0).
  unfold bind at 1. unfold lift at 1.
  unfold bind at 1.
  rewrite (set_coredata_chain _ _ _ _ _ _ (dict_get_set_eq _ _ _)).
  unfold bind at 1. unfold lift at 1.
  unfold bind at 1.
  rewrite (set_coredata_chain _ _ _ _ _ _ (dict_get_set_eq _ _ _)).
  unfold bind at 1. unfold lift at 1.
  unfold bind at 1.
  rewrite (set_coredata_chain _ _ _ _ _ _ (dict_get_set_eq _ _ _)).
  unfold bind at 1. unfold lift at 1.
  unfold bind at 1. rewrite set_toplevel_chain.
  unfold ret. rewrite !dict_set_set. reflexivity.
Qed.

(** X8: [read_metrics] returns true exactly when it is given a client whose
    answer has, under "author-retrieval-response", a sequence whose first
    element holds a "coredata" with "dc:identifier", "citation-count" and
    "document-count" and an "h-index", the three counts being acceptable to
    [int], and the object has either no data or data with a "coredata"
    dictionary; the state it leaves is then the one with the five metrics
    written and one request added. *)
Theorem read_metrics_true_iff
    (arg : option ElsClient) (p : Profile) (w : World) (s' : St) :
  ElsAuthor.read_metrics arg (p, w) = (Return true, s')
  <->
  exists c resp payload first core ident vc vd vh zc zd zh d0 core0,
    arg = Some c
    /\ respond c (requests w) (metrics_url p) = Return resp
    /\ py_getitem_key resp "author-retrieval-response" = Return payload
    /\ py_getitem_idx payload 0 = Return first
    /\ py_getitem_key first "coredata" = Return core
    /\ py_getitem_key core "dc:identifier" = Return ident
    /\ py_getitem_key core "citation-count" = Return vc
    /\ py_getitem_key core "document-count" = Return vd
    /\ py_getitem_key first "h-index" = Return vh
    /\ py_int vc = Return zc /\ py_int vd = Return zd /\ py_int vh = Return zh
    /\ start_containers p d0 core0
    /\ s' = (set_data (metrics_written ident zc zd zh d0 core0) p,
             sent (metrics_url p) w).
Proof.
  split.
  - apply read_metrics_success.
  - intros (c & resp & payload & first & core & ident & vc & vd & vh & zc & zd
            & zh & d0 & core0 & -> & Hresp & Hpay & Hfirst & Hcore & Hid & Hvc
            & Hvd & Hvh & Hzc & Hzd & Hzh & Hstart & ->).
    eapply read_metrics_run; eassumption.
Qed.

Lemma dict_set_same k v d : dict_get k d = Some v -> dict_set k v d = d.
Proof.
  induction d as [| [k0 v0] r IH]; simpl; [discriminate |].
  destruct (String.eqb_spec k k0) as [-> | Hne].
  - intros H. injection H as ->. reflexivity.
  - intros H. rewrite (IH H). reflexivity.
Qed.

Lemma dict_set_nonempty k v d : dict_set k v d <> [].
Proof.
  destruct d as [| [k0 v0] r]; simpl; [discriminate |].
  destruct (String.eqb k k0); discriminate.
Qed.

Lemma truthy_dict_set k v d : truthy (PDict (dict_set k v d)) = true.
Proof.
  pose proof (dict_set_nonempty k v d). simpl.
  destruct (dict_set k v d); [contradiction | reflexivity].
Qed.

(** X9: a [read_metrics] that follows a successful one and gets the same
    answer returns true and leaves the object exactly as the first call left
    it; only the request log grows. *)
Theorem read_metrics_twice
    (c c' : ElsClient) (p p1 : Profile) (w w1 : World) :
  ElsAuthor.read_metrics (Some c) (p, w) = (Return true, (p1, w1)) ->
  respond c' (requests w1) (metrics_url p)
  = respond c (requests w) (metrics_url p) ->
  ElsAuthor.read_metrics (Some c') (p1, w1)
  = (Return true, (p1, sent (metrics_url p) w1)).
Proof.
  intros H Hsame.
  destruct (read_metrics_success _ _ _ _ H)
    as (c0 & resp & payload & first & core & ident & vc & vd & vh & zc & zd
        & zh & d0 & core0 & Harg & Hresp & Hpay & Hfirst & Hcore & Hid & Hvc
        & Hvd & Hvh & Hzc & Hzd & Hzh & _ & Hs).
  injection Harg as <-. injection Hs as -> ->.
  set (core4 := dict_set "document-count" (PInt zd)
                  (dict_set "cited-by-count" (PInt zc)
                     (dict_set "citation-count" (PInt zc)
                        (dict_set "dc:identifier" ident core0)))).
  set (d4 := dict_set "h-index" (PInt zh) (dict_set "coredata" (PDict core4) d0)).
  assert (Hget : dict_get "coredata" d4 = Some (PDict core4)).
  { unfold d4. rewrite dict_get_set_ne by discriminate. apply dict_get_set_eq. }
  assert (Hcore4 : dict_set "document-count" (PInt zd)
                     (dict_set "cited-by-count" (PInt zc)
                        (dict_set "citation-count" (PInt zc)
                           (dict_set "dc:identifier" ident core4))) = core4).
  { rewrite (dict_set_same "dc:identifier" ident core4).
    2: { unfold core4. rewrite !dict_get_set_ne by discriminate.
         apply dict_get_set_eq. }
    rewrite (dict_set_same "citation-count" (PInt zc) core4).
    2: { unfold core4. rewrite !dict_get_set_ne by discriminate.
         apply dict_get_set_eq. }
    rewrite (dict_set_same "cited-by-count" (PInt zc) core4).
    2: { unfold core4. rewrite !dict_get_set_ne by discriminate.
         apply dict_get_set_eq. }
    apply dict_set_same. unfold core4. apply dict_get_set_eq. }
  assert (Hstart : start_containers
                     (set_data (metrics_written ident zc zd zh d0 core0) p)
                     d4 core4).
  { unfold start_containers, metrics_written. fold core4. fold d4.
    change (data (set_data (PDict d4) p)) with (PDict d4).
    unfold d4 at 1. rewrite truthy_dict_set. split; [reflexivity | exact Hget]. }
  rewrite <- Hsame in Hresp.
  rewrite (read_metrics_run c'
             (set_data (metrics_written ident zc zd zh d0 core0) p)
             (sent (metrics_url p) w) resp payload first core ident vc vd vh
             zc zd zh d4 core4 Hresp Hpay Hfirst Hcore Hid Hvc Hvd Hvh
             Hzc Hzd Hzh Hstart).
  unfold metrics_written at 1. rewrite Hcore4.
  rewrite (dict_set_same "coredata" (PDict core4) d4 Hget).
  rewrite (dict_set_same "h-index" (PInt zh) d4)
    by (unfold d4; apply dict_get_set_eq).
  reflexivity.
Qed.

Lemma read_metrics_twice_witness :
  ElsAuthor.read_metrics (Some (answering metrics_answer))
    (snd (ElsAuthor.read_metrics (Some (answering metrics_answer))
            (author_read, world0)))
  = (Return true,
     (fst (snd (ElsAuthor.read_metrics (Some (answering metrics_answer))
                  (author_read, world0))),
      sent (metrics_url author_read)
        (snd (snd (ElsAuthor.read_metrics (Some (answering metrics_answer))
                     (author_read, world0)))))).
Proof.
  apply (read_metrics_twice (answering metrics_answer) (answering metrics_answer)
           author_read
           (fst (snd (ElsAuthor.read_metrics (Some (answering metrics_answer))
                        (author_read, world0))))
           world0
           (snd (snd (ElsAuthor.read_metrics (Some (answering metrics_answer))
                        (author_read, world0)))));
    reflexivity.
Defined.

(** X10: [read_metrics] is not all-or-nothing: when "document-count" of the
    answer is not acceptable to [int], the error of [int] (ValueError or
    TypeError) escapes to the caller, and the identifier and both citation
    counts have already been written to [data], while "document-count" and
    "h-index" have not. *)
Theorem read_metrics_not_atomic
    (c : ElsClient) (p : Profile) (w : World)
    (resp payload first core ident vc vd : pyval) (zc : Z) (e : exn)
    (d0 core0 : list (string * pyval)) :
  respond c (requests w) (metrics_url p) = Return resp ->
  py_getitem_key resp "author-retrieval-response" = Return payload ->
  py_getitem_idx payload 0 = Return first ->
  py_getitem_key first "coredata" = Return core ->
  py_getitem_key core "dc:identifier" = Return ident ->
  py_getitem_key core "citation-count" = Return vc ->
  py_int vc = Return zc ->
  py_getitem_key core "document-count" = Return vd ->
  py_int vd = Raise e ->
  start_containers p d0 core0 ->
  ElsAuthor.read_metrics (Some c) (p, w)
  = (Raise e,
     (set_data
        (PDict
           (dict_set "coredata"
              (PDict
                 (dict_set "cited-by-count" (PInt zc)
                    (dict_set "citation-count" (PInt zc)
                       (dict_set "dc:identifier" ident core0))))
              d0)) p,
      sent (metrics_url p) w)).
Proof.
  intros Hresp Hpay Hfirst Hcore Hid Hvc Hzc Hvd Hzd Hstart.
  pose proof (start_containers_coredata _ _ _ Hstart) as Hc0.
  pose proof (py_int_raise _ _ Hzd) as He.
  unfold ElsAuthor.read_metrics. unfold bind at 1.
  match goal with
  | |- context [try_except ?b ?ca ?h ?s] =>
      assert (H : try_except b ca h s
                  = (Raise e,
                     (set_data
                        (PDict
                           (dict_set "coredata"
                              (PDict
                                 (dict_set "cited-by-count" (PInt zc)
                                    (dict_set "citation-count" (PInt zc)
                                       (dict_set "dc:identifier" ident core0))))
                              d0)) p,
                      sent (metrics_url p) w)));
        [| rewrite H; reflexivity]
  end.
  unfold try_except.
  erewrite (metrics_prologue c p w resp payload first d0 core0); try eassumption.
  rewrite !(coredata_of_run first core) by exact Hcore.
  rewrite Hid.
  erewrite (int_of_run _ vc zc Hvc Hzc).
  unfold bind at 1. unfold lift at 1.
  unfold bind at 1. rewrite (set_coredata_chain _ _ _ _ _ _ Hc0).
  unfold bind at 1. unfold lift at 1.
  unfold bind at 1.
  rewrite (set_coredata_chain _ _ _ _ _ _ (dict_get_set_eq _ _ _)).
  unfold bind at 1. unfold lift at 1.
  unfold bind at 1.
  rewrite (set_coredata_chain _ _ _ _ _ _ (dict_get_set_eq _ _ _)).
  unfold bind at 1. unfold lift at 1. unfold ElsAuthor.int_of.
  rewrite Hvd, Hzd, He, !dict_set_set. reflexivity.
Qed.

Lemma read_metrics_not_atomic_witness :
  fst (ElsAuthor.read_metrics (Some (answering bad_metrics_answer))
         (author_read, world0))
  = Raise (ValueError "invalid literal for int() with base 10: 'n/a'")
  /\ data (fst (snd (ElsAuthor.read_metrics (Some (answering bad_metrics_answer))
                       (author_read, world0))))
     = PDict [("coredata",
               PDict [("dc:identifier", PStr "AUTHOR_ID:7004367821");
                      ("eid", PStr "9-s2.0-7004367821");
                      ("citation-count", PInt 5309);
                      ("cited-by-count", PInt 5309)]);
              ("author-profile",
               PDict [("preferred-name",
                       PDict [("given-name", PStr "A"); ("surname", PStr "B")])])].
Proof.
  rewrite (read_metrics_not_atomic (answering bad_metrics_answer) author_read
             world0 bad_metrics_answer
             (PList [PDict [("coredata",
                             PDict [("dc:identifier", PStr "AUTHOR_ID:7004367821");
                                    ("document-count", PStr "n/a");
                                    ("citation-count", PStr "5309")]);
                            ("h-index", PStr "37")]])
             (PDict [("coredata",
                      PDict [("dc:identifier", PStr "AUTHOR_ID:7004367821");
                             ("document-count", PStr "n/a");
                             ("citation-count", PStr "5309")]);
                     ("h-index", PStr "37")])
             (PDict [("dc:identifier", PStr "AUTHOR_ID:7004367821");
                     ("document-count", PStr "n/a");
                     ("citation-count", PStr "5309")])
             (PStr "AUTHOR_ID:7004367821") (PStr "5309") (PStr "n/a") 5309
             (ValueError "invalid literal for int() with base 10: 'n/a'")
             [("coredata", PDict [("dc:identifier", PStr "AUTHOR_ID:7004367821");
                                  ("eid", PStr "9-s2.0-7004367821")]);
              ("author-profile",
               PDict [("preferred-name",
                       PDict [("given-name", PStr "A"); ("surname", PStr "B")])])]
             [("dc:identifier", PStr "AUTHOR_ID:7004367821");
              ("eid", PStr "9-s2.0-7004367821")]
             eq_refl eq_refl eq_refl eq_refl eq_refl eq_refl eq_refl eq_refl
             eq_refl).
  - split; reflexivity.
  - split; reflexivity.
Defined.

Lemma set_coredata_requests k v :
  preserves the_requests (ElsAuthor.set_coredata k v).
Proof. unfold ElsAuthor.set_coredata. preserves_steps. Qed.

Lemma set_toplevel_requests k v :
  preserves the_requests (ElsAuthor.set_toplevel k v).
Proof. unfold ElsAuthor.set_toplevel. preserves_steps. Qed.

Lemma read_metrics_one_request_aux c p w :
  requests (snd (snd (ElsAuthor.read_metrics (Some c) (p, w))))
  = requests w ++ [metrics_url p].
Proof.
  unfold ElsAuthor.read_metrics.
  unfold bind at 1. unfold try_except.
  unfold bind at 1. unfold self at 1. cbn [fst].
  unfold bind at 1. unfold ret at 1.
  unfold bind at 1. unfold in_world at 1, exec_request at 1. cbn [fst snd].
  change (uri p +:+ "?field=" +:+ join "," ElsAuthor.fields)
    with (metrics_url p).
  destruct (respond c (requests w) (metrics_url p)) as [resp | e].
  - match goal with
    | |- context [bind ?m ?f ?s] =>
        assert (HK : preserves the_requests (bind m f));
          [| specialize (HK s); destruct (bind m f s) as [[r | e] s1]]
    end.
    + pose proof set_coredata_requests. pose proof set_toplevel_requests.
      preserves_steps; auto.
    + unfold the_requests in HK. cbn [snd] in HK. destruct r; cbn; exact HK.
    + unfold the_requests in HK. cbn [snd] in HK.
      destruct (is_transport e); cbn; exact HK.
  - destruct (is_transport e); reflexivity.
Qed.

(** X5: [read_metrics] called with a client issues exactly one request,
    whatever the client answers and whatever the call returns or raises: a
    GET of the object's URI followed by
    "?field=document-count,cited-by-count,citation-count,h-index,dc:identifier". *)
Theorem read_metrics_one_request (c : ElsClient) (p : Profile) (w : World) :
  requests (snd (snd (ElsAuthor.read_metrics (Some c) (p, w))))
  = requests w
    ++ [uri p +:+ "?field=document-count,cited-by-count,citation-count,h-index,dc:identifier"].
Proof. apply read_metrics_one_request_aux. Qed.


(** X6: when the request of [read_metrics] fails with HTTPError or
    RequestException, the call returns false and the object is exactly what it
    was; the request is in the log. *)
Theorem read_metrics_transport_error
    (c : ElsClient) (p : Profile) (w : World) (e : exn) :
  respond c (requests w) (metrics_url p) = Raise e ->
  is_transport e = true ->
  ElsAuthor.read_metrics (Some c) (p, w)
  = (Return false, (p, sent (metrics_url p) w)).
Proof.
  intros Hresp He. unfold ElsAuthor.read_metrics.
  unfold bind at 1. unfold try_except.
  unfold bind at 1. unfold self at 1. cbn [fst].
  unfold bind at 1. unfold ret at 1.
  unfold bind at 1. unfold in_world at 1, exec_request at 1. cbn [fst snd].
  change (uri p +:+ "?field=" +:+ join "," ElsAuthor.fields)
    with (metrics_url p).
  rewrite Hresp, He. reflexivity.
Qed.

Lemma read_metrics_transport_error_witness :
  ElsAuthor.read_metrics (Some (failing RequestException)) (author_read, world0)
  = (Return false, (author_read, sent (metrics_url author_read) world0)).
Proof.
  apply (read_metrics_transport_error (failing RequestException) author_read
           world0 RequestException); reflexivity.
Defined.

(** *** read_docs *)

Lemma read_docs_no_client pt p w :
  client p = None ->
  ElsProfile.read_docs pt None (p, w) = (Raise binding_error, (p, w)).
Proof.
  intros H. unfold ElsProfile.read_docs. run. rewrite H. reflexivity.
Qed.

(** X1: [read_docs] called without a client on an object that is bound to none
    raises the ValueError with the text "Entity object not currently bound to
    els_client instance."; no request is issued and neither the object nor
    the world changes. *)
Theorem read_docs_unbound (pt : string) (p : Profile) (w : World) :
  client p = None ->
  ElsProfile.read_docs pt None (p, w)
  = (Raise (ValueError "Entity object not currently bound to els_client instance."),
     (p, w)).
Proof. apply read_docs_no_client. Qed.

Lemma read_docs_unbound_witness :
  ElsProfile.read_docs ElsAuthor._payload_type None (author0, world0)
  = (Raise (ValueError "Entity object not currently bound to els_client instance."),
     (author0, world0)).
Proof. apply (read_docs_unbound _ author0 world0). reflexivity. Defined.

Lemma client_after_read_docs pt c p w :
  client (fst (snd (ElsProfile.read_docs pt (Some c) (p, w)))) = Some c.
Proof.
  rewrite (read_docs_unfold pt (Some c) p w c eq_refl). cbv zeta.
  destruct (respond c _ _) as [resp | e];
    [| destruct (is_transport e); reflexivity].
  destruct (py_get resp _ _) as [results | e]; [| reflexivity].
  destruct (py_get results _ _) as [entry | e]; [| reflexivity].
  destruct (py_len entry); [| reflexivity].
  destruct (frame_error w entry) as [e |];
    [destruct (is_transport e) |]; reflexivity.
Qed.

Lemma set_client_bound c p : client p = Some c -> set_client (Some c) p = p.
Proof.
  destruct p as [[u cl dt] dl fr]. unfold client. simpl. intros ->. reflexivity.
Qed.

(** X2: [read_docs] called with a client binds the object to that client
    whatever happens next (true, false or an exception); a later [read_docs]
    without argument then does exactly what the same call with that client
    does. *)
Theorem read_docs_binds_client
    (pt pt' : string) (c : ElsClient) (p : Profile) (w : World) :
  client (fst (snd (ElsProfile.read_docs pt (Some c) (p, w)))) = Some c
  /\ ElsProfile.read_docs pt' None
       (snd (ElsProfile.read_docs pt (Some c) (p, w)))
     = ElsProfile.read_docs pt' (Some c)
         (snd (ElsProfile.read_docs pt (Some c) (p, w))).
Proof.
  pose proof (client_after_read_docs pt c p w) as Hc.
  destruct (snd (ElsProfile.read_docs pt (Some c) (p, w))) as [p1 w1].
  cbn [fst] in Hc. split; [exact Hc |].
  rewrite (read_docs_unfold pt' None p1 w1 c Hc).
  rewrite (read_docs_unfold pt' (Some c) p1 w1 c eq_refl).
  cbn [bound]. rewrite (set_client_bound c p1 Hc). reflexivity.
Qed.

(** X3: when [read_docs] returns true, a client was available, its answer and
    the value under "search-results" answered [get], the value under "entry"
    has a length, and the call changed nothing but this: the object is bound
    to that client, [doc_list] is the entry, the frame is built from it, and
    one request was added to the log; [uri], [data] and the files are as
    before. *)
Theorem read_docs_success
    (pt : string) (arg : option ElsClient) (p : Profile) (w : World) (s' : St) :
  ElsProfile.read_docs pt arg (p, w) = (Return true, s') ->
  exists c resp results entry n,
    available arg p = Some c
    /\ respond c (requests w) (ElsProfile.search_url (uri p)) = Return resp
    /\ py_get resp "search-results" (PDict []) = Return results
    /\ py_get results "entry" (PList []) = Return entry
    /\ py_len entry = Return n
    /\ frame_error w entry = None
    /\ s' = (mkProfile (mkEntity (uri p) (Some c) (data p)) entry
               (Some (recast_df_DataFrame entry)),
             mkWorld (requests w ++ [ElsProfile.search_url (uri p)]) (files w)
               (frame_error w)).
Proof.
  intros H. destruct (available arg p) as [c |] eqn:Hav.
  - rewrite (read_docs_unfold pt arg p w c Hav) in H. cbv zeta in H.
    destruct (respond c _ _) as [resp | e] eqn:Hresp;
      [| destruct (is_transport e); discriminate H].
    destruct (py_get resp _ _) as [results | e] eqn:Hres; [| discriminate H].
    destruct (py_get results _ _) as [entry | e] eqn:Hentry; [| discriminate H].
    destruct (py_len entry) as [n | e] eqn:Hlen; [| discriminate H].
    destruct (frame_error w entry) as [e |] eqn:Hframe;
      [destruct (is_transport e); discriminate H |].
    injection H as <-. exists c, resp, results, entry, n.
    repeat (split; [assumption || reflexivity |]).
    destruct arg as [c' |]; simpl in Hav.
    + injection Hav as ->. reflexivity.
    + unfold bound. destruct p as [[u cl dt] dl fr]. unfold client in Hav.
      simpl in Hav. subst. reflexivity.
  - destruct arg; [discriminate Hav |]. simpl in Hav.
    rewrite (read_docs_no_client pt p w Hav) in H. discriminate H.
Qed.

Lemma read_docs_success_witness :
  exists c resp results entry n,
    available (Some (answering search_answer)) author_read = Some c
    /\ respond c (requests world0) (ElsProfile.search_url (uri author_read))
       = Return resp
    /\ py_get resp "search-results" (PDict []) = Return results
    /\ py_get results "entry" (PList []) = Return entry
    /\ py_len entry = Return n
    /\ frame_error world0 entry = None
    /\ snd (ElsProfile.read_docs ElsAuthor._payload_type
              (Some (answering search_answer)) (author_read, world0))
       = (mkProfile (mkEntity (uri author_read) (Some c) (data author_read)) entry
            (Some (recast_df_DataFrame entry)),
          mkWorld (requests world0 ++ [ElsProfile.search_url (uri author_read)])
            (files world0) (frame_error world0)).
Proof.
  apply (read_docs_success ElsAuthor._payload_type
           (Some (answering search_answer)) author_read world0
           (snd (ElsProfile.read_docs ElsAuthor._payload_type
                   (Some (answering search_answer)) (author_read, world0)))).
  reflexivity.
Defined.

(** X4: with a client available, [read_docs] lets every error escape that is
    no transport error: an exception of the request other than HTTPError and
    RequestException is raised to the caller as it is, an answer that is no
    mapping raises AttributeError, and so does a "search-results" value that
    is no mapping; in all three cases [doc_list] is what it was. *)
Theorem read_docs_other_errors_escape
    (pt : string) (arg : option ElsClient) (p : Profile) (w : World)
    (c : ElsClient) :
  available arg p = Some c ->
  (forall e,
      respond c (requests w) (ElsProfile.search_url (uri p)) = Raise e ->
      is_transport e = false ->
      fst (ElsProfile.read_docs pt arg (p, w)) = Raise e
      /\ doc_list (fst (snd (ElsProfile.read_docs pt arg (p, w)))) = doc_list p)
  /\
  (forall resp,
      respond c (requests w) (ElsProfile.search_url (uri p)) = Return resp ->
      (forall o, resp <> PDict o) ->
      fst (ElsProfile.read_docs pt arg (p, w)) = Raise AttributeError
      /\ doc_list (fst (snd (ElsProfile.read_docs pt arg (p, w)))) = doc_list p)
  /\
  (forall o results,
      respond c (requests w) (ElsProfile.search_url (uri p)) = Return (PDict o) ->
      dict_get "search-results" o = Some results ->
      (forall sr, results <> PDict sr) ->
      fst (ElsProfile.read_docs pt arg (p, w)) = Raise AttributeError
      /\ doc_list (fst (snd (ElsProfile.read_docs pt arg (p, w)))) = doc_list p).
Proof.
  intros Hav. rewrite (read_docs_unfold pt arg p w c Hav). cbv zeta.
  split; [| split].
  - intros e Hresp He. rewrite Hresp, He. split; [reflexivity |].
    apply doc_list_bound.
  - intros resp Hresp Hno. rewrite Hresp.
    destruct resp as [| | | | | o]; try (split; [reflexivity | apply doc_list_bound]).
    destruct (Hno o eq_refl).
  - intros o results Hresp Hsr Hno. rewrite Hresp. cbn [py_get]. rewrite Hsr.
    destruct results as [| | | | | sr];
      try (split; [reflexivity | apply doc_list_bound]).
    destruct (Hno sr eq_refl).
Qed.

Lemma read_docs_other_errors_escape_witness :
  (fst (ElsProfile.read_docs ElsAuthor._payload_type (Some (failing KeyError_sample))
          (author1, world0)) = Raise KeyError_sample
   /\ doc_list (fst (snd (ElsProfile.read_docs ElsAuthor._payload_type
                            (Some (failing KeyError_sample)) (author1, world0))))
      = doc_list author1)
  /\
  (fst (ElsProfile.read_docs ElsAuthor._payload_type
          (Some (answering (PList []))) (author1, world0)) = Raise AttributeError
   /\ doc_list (fst (snd (ElsProfile.read_docs ElsAuthor._payload_type
                            (Some (answering (PList []))) (author1, world0))))
      = doc_list author1).
Proof.
  split.
  - apply (proj1 (read_docs_other_errors_escape _ (Some (failing KeyError_sample))
                    author1 world0 (failing KeyError_sample) eq_refl));
      reflexivity.
  - apply (proj1 (proj2 (read_docs_other_errors_escape _
                           (Some (answering (PList []))) author1 world0
                           (answering (PList [])) eq_refl)) (PList []));
      [reflexivity | discriminate].
Defined.

(** *** The names *)

(** X11: [full_name] returns a value exactly when [first_name] and
    [last_name] both return strings, and the value is then the first name, one
    blank and the last name. *)
Theorem full_name_iff (p : Profile) (v : pyval) :
  ElsAuthor.full_name p = Return v
  <->
  exists given surname,
    ElsAuthor.first_name p = Return (PStr given)
    /\ ElsAuthor.last_name p = Return (PStr surname)
    /\ v = PStr (given +:+ " " +:+ surname).
Proof.
  unfold ElsAuthor.full_name. split.
  - destruct (ElsAuthor.first_name p) as [f | e]; [| discriminate].
    destruct f as [| | | given | |]; try discriminate. cbn [py_add].
    destruct (ElsAuthor.last_name p) as [l | e]; [| discriminate].
    destruct l as [| | | surname | |]; try discriminate. cbn [py_add].
    intros H. injection H as <-. exists given, surname.
    rewrite app_assoc_s. auto.
  - intros (given & surname & -> & -> & ->). cbn [py_add].
    rewrite app_assoc_s. reflexivity.
Qed.

(** X12: on an object as a constructor returns it (no [read] yet) the
    properties [first_name], [last_name], [full_name] and [name] raise
    TypeError: [data] is None and cannot be subscripted. *)
Theorem names_need_data (k : kind) (u : string) (id : ident) (p : Profile) :
  construct k u id = Return p ->
  ElsAuthor.first_name p = Raise TypeError
  /\ ElsAuthor.last_name p = Raise TypeError
  /\ ElsAuthor.full_name p = Raise TypeError
  /\ ElsAffil.name p = Raise TypeError.
Proof.
  intros H.
  assert (Hd : data p = PNone).
  { destruct k; unfold construct, ElsAuthor.__init__, ElsAffil.__init__ in H;
      destruct (str_truthy u), (ident_truthy id); simpl in H;
      try discriminate; injection H as <-; reflexivity. }
  unfold ElsAuthor.full_name, ElsAuthor.first_name, ElsAuthor.last_name,
    ElsAuthor.preferred_name, ElsAffil.name.
  rewrite Hd. repeat split.
Qed.

Lemma names_need_data_witness :
  ElsAuthor.first_name author0 = Raise TypeError
  /\ ElsAuthor.last_name author0 = Raise TypeError
  /\ ElsAuthor.full_name author0 = Raise TypeError
  /\ ElsAffil.name author0 = Raise TypeError.
Proof.
  apply (names_need_data Author author_uri (IdStr "") author0). reflexivity.
Defined.

(** X13: a successful [read_metrics] on an author that has data leaves
    [first_name], [last_name] and [full_name] as they were; on an author with
    no data it leaves data without a profile, and the three properties raise
    KeyError "author-profile". *)
Theorem read_metrics_keeps_names
    (arg : option ElsClient) (p : Profile) (w : World) (s' : St) :
  ElsAuthor.read_metrics arg (p, w) = (Return true, s') ->
  (truthy (data p) = true ->
   ElsAuthor.first_name (fst s') = ElsAuthor.first_name p
   /\ ElsAuthor.last_name (fst s') = ElsAuthor.last_name p
   /\ ElsAuthor.full_name (fst s') = ElsAuthor.full_name p)
  /\
  (truthy (data p) = false ->
   ElsAuthor.first_name (fst s') = Raise (KeyError "author-profile")
   /\ ElsAuthor.last_name (fst s') = Raise (KeyError "author-profile")
   /\ ElsAuthor.full_name (fst s') = Raise (KeyError "author-profile")).
Proof.
  intros H.
  destruct (read_metrics_success _ _ _ _ H)
    as (c & resp & payload & first & core & ident & vc & vd & vh & zc & zd
        & zh & d0 & core0 & _ & _ & _ & _ & _ & _ & _ & _ & _ & _ & _ & _
        & Hcase & ->).
  cbn [fst]. split; intros Ht; rewrite Ht in Hcase.
  - destruct Hcase as [Hd0 Hc0].
    assert (Hpn : forall k, ElsAuthor.preferred_name
                              (set_data (metrics_written ident zc zd zh d0 core0) p) k
                            = ElsAuthor.preferred_name p k).
    { intros k. unfold ElsAuthor.preferred_name, metrics_written.
      change (data (set_data ?x p)) with x. rewrite Hd0. cbn [py_getitem_key].
      rewrite !dict_get_set_ne by discriminate. reflexivity. }
    unfold ElsAuthor.full_name, ElsAuthor.first_name, ElsAuthor.last_name.
    rewrite !Hpn. auto.
  - destruct Hcase as [-> ->]. repeat split.
Qed.

Lemma read_metrics_keeps_names_witness :
  ElsAuthor.full_name
    (fst (snd (ElsAuthor.read_metrics (Some (answering metrics_answer))
                 (author_read, world0))))
  = ElsAuthor.full_name author_read
  /\ ElsAuthor.full_name author_read = Return (PStr "A B")
  /\ ElsAuthor.full_name
       (fst (snd (ElsAuthor.read_metrics (Some (answering metrics_answer))
                    (author0, world0))))
     = Raise (KeyError "author-profile").
Proof.
  split; [| split].
  - apply (proj1 (read_metrics_keeps_names (Some (answering metrics_answer))
                    author_read world0 _ eq_refl)). reflexivity.
  - reflexivity.
  - apply (proj2 (read_metrics_keeps_names (Some (answering metrics_answer))
                    author0 world0 _ eq_refl)). reflexivity.
Defined.

(** *** Constructors *)

Lemma str_of_Z_truthy (z : Z) : str_truthy (str_of_Z z) = true.
Proof. destruct (str_of_Z_head z) as (c & r & -> & _). reflexivity. Qed.

(** X14: a constructor given a number other than 0 as ID does what it does
    given the decimal text of that number, for authors and affiliations and
    whatever URI comes with it. *)
Theorem init_number_or_text (k : kind) (u : string) (z : Z) :
  z <> 0%Z ->
  construct k u (IdInt z) = construct k u (IdStr (str_of_Z z)).
Proof.
  intros Hz.
  assert (H1 : ident_truthy (IdInt z) = true).
  { simpl. destruct (Z.eqb_spec z 0); [contradiction | reflexivity]. }
  assert (H2 : ident_truthy (IdStr (str_of_Z z)) = true)
    by apply str_of_Z_truthy.
  destruct k; unfold construct, ElsAuthor.__init__, ElsAffil.__init__;
    rewrite H1, H2; reflexivity.
Qed.

Lemma init_number_or_text_witness :
  construct Author "" (IdInt 7004367821)
  = construct Author "" (IdStr "7004367821").
Proof. apply (init_number_or_text Author "" 7004367821). discriminate. Defined.

Lemma has_char_app c a b :
  has_char c (a +:+ b) = has_char c a || has_char c b.
Proof.
  induction a as [| x a IH]; [reflexivity |].
  change (String x a +:+ b) with (String x (a +:+ b)). cbn [has_char].
  rewrite IH, orb_assoc. reflexivity.
Qed.

Lemma digit_char_not_slash (d : Z) :
  (0 <= d < 10)%Z -> Ascii.eqb (digit_char d) "/" = false.
Proof.
  intros H.
  assert (E : (d = 0 \/ d = 1 \/ d = 2 \/ d = 3 \/ d = 4 \/ d = 5 \/ d = 6
               \/ d = 7 \/ d = 8 \/ d = 9)%Z) by lia.
  repeat (destruct E as [-> | E]; [reflexivity |]).
  subst. reflexivity.
Qed.

Lemma digits_of_no_slash (f : nat) :
  forall n : Z,
    (0 <= n < 10 ^ Z.of_nat (S f))%Z -> has_char "/" (digits_of f n) = false.
Proof.
  induction f as [| f IH]; intros n Hn.
  - change (10 ^ Z.of_nat 1)%Z with 10%Z in Hn. cbn [digits_of has_char].
    rewrite digit_char_not_slash by lia. reflexivity.
  - cbn [digits_of]. destruct (n <? 10)%Z eqn:E.
    + apply Z.ltb_lt in E. cbn [has_char].
      rewrite digit_char_not_slash by lia. reflexivity.
    + apply Z.ltb_ge in E. rewrite has_char_app, (IH _ (pow10_step f n Hn)).
      cbn [has_char].
      rewrite digit_char_not_slash by (apply Z.mod_pos_bound; lia).
      reflexivity.
Qed.

Lemma str_of_Z_no_slash (z : Z) : has_char "/" (str_of_Z z) = false.
Proof.
  unfold str_of_Z. destruct (z <? 0)%Z eqn:E.
  - apply Z.ltb_lt in E. cbn [has_char].
    rewrite (digits_of_no_slash _ _ (log2_fuel (- z) ltac:(lia))). reflexivity.
  - apply Z.ltb_ge in E. apply (digits_of_no_slash _ _ (log2_fuel z E)).
Qed.

Lemma read_docs_requests pt arg p w c :
  available arg p = Some c ->
  requests (snd (snd (ElsProfile.read_docs pt arg (p, w))))
  = requests w ++ [ElsProfile.search_url (uri p)].
Proof.
  intros Hc. rewrite (read_docs_unfold pt arg p w c Hc). cbv zeta.
  destruct (respond c _ _) as [resp | e];
    [| destruct (is_transport e); reflexivity].
  destruct (py_get resp _ _) as [results | e]; [| reflexivity].
  destruct (py_get results _ _) as [entry | e]; [| reflexivity].
  destruct (py_len entry); [| reflexivity].
  destruct (frame_error w entry) as [e |];
    [destruct (is_transport e) |]; reflexivity.
Qed.

(** X15: for an object constructed from an ID alone (a number, or a text
    without a slash), [read_docs] with a client issues exactly one request:
    the Scopus search for "au-id(<the ID>)", for an author and for an
    affiliation alike. *)
Theorem init_then_read_docs
    (k : kind) (id : ident) (p : Profile) (w : World)
    (arg : option ElsClient) :
  construct k "" id = Return p ->
  match id with
  | IdStr s => has_char "/" s = false
  | IdInt _ => True
  end ->
  arg <> None ->
  requests (snd (snd (run_op k (OpReadDocs arg) (p, w))))
  = requests w
    ++ ["http://api.elsevier.com/content/search/scopus?query=au-id("
        +:+ str id +:+ ")&view=COMPLETE"].
Proof.
  intros Hp Hid Harg.
  destruct arg as [c |]; [clear Harg | destruct (Harg eq_refl)].
  assert (Hs : has_char "/" (str id) = false).
  { destruct id as [s | z]; [exact Hid | apply str_of_Z_no_slash]. }
  assert (Hu : exists pre, uri p = pre +:+ String "/" (str id)).
  { destruct k; unfold construct, ElsAuthor.__init__, ElsAffil.__init__ in Hp;
      cbn [str_truthy String.eqb negb andb] in Hp;
      destruct (ident_truthy id); try discriminate Hp;
      cbn [negb andb] in Hp; injection Hp as <-.
    - exists "https://api.elsevier.com/content/author/author_id". reflexivity.
    - exists "https://api.elsevier.com/content/affiliation/affiliation_id".
      reflexivity. }
  destruct Hu as [pre Hu].
  assert (E : forall pt,
             requests (snd (snd (ElsProfile.read_docs pt (Some c) (p, w))))
             = requests w
               ++ ["http://api.elsevier.com/content/search/scopus?query=au-id("
                   +:+ str id +:+ ")&view=COMPLETE"]).
  { intros pt. rewrite (read_docs_requests pt (Some c) p w c eq_refl).
    unfold ElsProfile.search_url. rewrite Hu, (last_segment pre _ Hs).
    reflexivity. }
  destruct k; apply E.
Qed.

Lemma init_then_read_docs_witness :
  requests (snd (snd (run_op Affil (OpReadDocs (Some (answering search_answer)))
                        (ElsProfile.__init__
                           (ElsAffil._uri_base +:+ str (IdInt 60016849)),
                         world0))))
  = ["http://api.elsevier.com/content/search/scopus?query=au-id(60016849)&view=COMPLETE"].
Proof.
  apply (init_then_read_docs Affil (IdInt 60016849) _ world0
           (Some (answering search_answer)));
    [reflexivity | exact I | discriminate].
Defined.

(** *** write_docs *)

Lemma world_eq (w1 w2 : World) :
  requests w1 = requests w2 ->
  (forall q, files w1 !! q = files w2 !! q) ->
  frame_error w1 = frame_error w2 ->
  w1 = w2.
Proof.
  destruct w1 as [r1 f1 e1], w2 as [r2 f2 e2]. simpl. intros -> H ->.
  f_equal. apply map_eq. exact H.
Qed.

(** X17: [write_docs] replaces the file rather than adding to it: on a
    non-empty list of documents, writing again leaves the world exactly as the
    first write left it, and the text of the file does not depend on what the
    file store held before. *)
Theorem write_docs_overwrites
    (p : Profile) (w w' w1 : World) (d : pyval) (ds : list pyval) :
  doc_list p = PList (d :: ds) ->
  ElsProfile.write_docs (p, w) = (Return true, (p, w1)) ->
  ElsProfile.write_docs (p, w1) = (Return true, (p, w1))
  /\ files (snd (snd (ElsProfile.write_docs (p, w'))))
       !! ElsProfile.dump_path (uri p)
     = files w1 !! ElsProfile.dump_path (uri p).
Proof.
  intros Hl H1.
  destruct (write_docs_list p w d ds Hl) as (wa & Ha & Hfa & Hra & Hoa).
  rewrite Ha in H1. injection H1 as <-.
  destruct (write_docs_list p wa d ds Hl) as (wb & Hb & Hfb & Hrb & Hob).
  destruct (write_docs_list p w' d ds Hl) as (wc & Hc & Hfc & _ & _).
  split.
  - pose proof (write_docs_frames (p, wa)) as Hfr. unfold the_frames in Hfr.
    rewrite Hb in Hfr. cbn [snd] in Hfr.
    rewrite Hb. do 2 f_equal. apply world_eq; [exact Hrb | | exact Hfr].
    intros q. destruct (decide (q = ElsProfile.dump_path (uri p))) as [-> | Hq].
    + rewrite Hfa, Hfb. reflexivity.
    + apply Hob. exact Hq.
  - rewrite Hc. cbn [snd]. rewrite Hfa, Hfc. reflexivity.
Qed.

Lemma write_docs_overwrites_witness :
  ElsProfile.write_docs
    (set_doc_list (PList [doc1; doc2]) author0,
     snd (snd (ElsProfile.write_docs
                 (set_doc_list (PList [doc1; doc2]) author0, world0))))
  = (Return true,
     (set_doc_list (PList [doc1; doc2]) author0,
      snd (snd (ElsProfile.write_docs
                  (set_doc_list (PList [doc1; doc2]) author0, world0)))))
  /\ files (snd (snd (ElsProfile.write_docs
                        (set_doc_list (PList [doc1; doc2]) author0,
                         mkWorld ["earlier"]
                           (<[ElsProfile.dump_path author_uri := "stale"]> ∅)
                           (fun _ => None)))))
       !! ElsProfile.dump_path author_uri
     = files (snd (snd (ElsProfile.write_docs
                          (set_doc_list (PList [doc1; doc2]) author0, world0))))
         !! ElsProfile.dump_path author_uri.
Proof.
  apply (write_docs_overwrites (set_doc_list (PList [doc1; doc2]) author0)
           world0 _ _ doc1 [doc2] eq_refl).
  destruct (write_docs_list (set_doc_list (PList [doc1; doc2]) author0)
              world0 doc1 [doc2] eq_refl) as (wa & Ha & _).
  rewrite Ha. reflexivity.
Defined.

(** X18: when [doc_list] is truthy but neither a list nor a string (a
    dictionary, a number, True), [write_docs] raises TypeError or KeyError
    after it has opened the file: the file is left empty, an earlier dump at
    that path is lost. *)
Theorem write_docs_not_a_sequence (p : Profile) (w : World) :
  truthy (doc_list p) = true ->
  (forall l, doc_list p <> PList l) ->
  (forall s, doc_list p <> PStr s) ->
  exists e,
    ElsProfile.write_docs (p, w)
    = (Raise e,
       (p, mkWorld (requests w)
             (<[ElsProfile.dump_path (uri p) := ""]> (files w))
             (frame_error w)))
    /\ (e = TypeError \/ e = KeyError "0").
Proof.
  intros Ht Hl Hs. unfold ElsProfile.write_docs.
  unfold bind at 1. unfold self at 1. cbn [fst]. rewrite Ht.
  unfold bind at 1. unfold in_world at 1, fs_open_w at 1. cbn [fst snd].
  unfold bind at 1. unfold lift at 1.
  destruct (doc_list p) as [| b | z | s | l | d] eqn:E.
  - discriminate Ht.
  - exists TypeError. split; [reflexivity | left; reflexivity].
  - exists TypeError. split; [reflexivity | left; reflexivity].
  - destruct (Hs s eq_refl).
  - destruct (Hl l eq_refl).
  - exists (KeyError "0"). split; [reflexivity | right; reflexivity].
Qed.

Lemma write_docs_not_a_sequence_witness :
  exists e,
    ElsProfile.write_docs (set_doc_list (PDict [("error", PStr "no results")]) author0,
                           world0)
    = (Raise e,
       (set_doc_list (PDict [("error", PStr "no results")]) author0,
        mkWorld [] (<[ElsProfile.dump_path author_uri := ""]> ∅)
          (fun _ => None)))
    /\ (e = TypeError \/ e = KeyError "0").
Proof.
  apply (write_docs_not_a_sequence
           (set_doc_list (PDict [("error", PStr "no results")]) author0) world0);
    [reflexivity | discriminate | discriminate].
Defined.

(** *** The name of the file *)

Lemma unquote_quote_char (c : ascii) (t : string) :
  unquote_plus (quote_char c +:+ t) = String c (unquote_plus t).
Proof. destruct c as [[] [] [] [] [] [] [] []]; reflexivity. Qed.

Lemma unquote_quote (s : string) : unquote_plus (quote_plus s) = s.
Proof.
  induction s as [| c s IH]; [reflexivity |].
  cbn [quote_plus]. rewrite unquote_quote_char, IH. reflexivity.
Qed.

Lemma app_inv_tail_s (a b c : string) : a +:+ c = b +:+ c -> a = b.
Proof.
  revert b. induction a as [| x a IH]; intros b H.
  - destruct b as [| y b]; [reflexivity |].
    apply (f_equal String.length) in H.
    change ("" +:+ c) with c in H.
    change (String y b +:+ c) with (String y (b +:+ c)) in H.
    cbn [String.length] in H. rewrite length_app_s in H. lia.
  - destruct b as [| y b].
    + apply (f_equal String.length) in H.
      change ("" +:+ c) with c in H.
      change (String x a +:+ c) with (String x (a +:+ c)) in H.
      cbn [String.length] in H. rewrite length_app_s in H. lia.
    + change (String x a +:+ c) with (String x (a +:+ c)) in H.
      change (String y b +:+ c) with (String y (b +:+ c)) in H.
      injection H as -> H. rewrite (IH b H). reflexivity.
Qed.

(** X19: objects with different URIs are written to different files. *)
Theorem dump_path_distinct (u1 u2 : string) :
  u1 <> u2 -> ElsProfile.dump_path u1 <> ElsProfile.dump_path u2.
Proof.
  intros Hne H. apply Hne. unfold ElsProfile.dump_path in H.
  change ("data/" +:+ ?t) with
    (String "d" (String "a" (String "t" (String "a" (String "/" t))))) in H.
  injection H as H.
  apply app_inv_tail_s in H.
  apply (f_equal unquote_plus) in H. rewrite !unquote_quote in H.
  apply app_inv_tail_s in H. exact H.
Qed.

Lemma dump_path_distinct_witness :
  ElsProfile.dump_path "https://api.elsevier.com/content/author/author_id/7004367821"
  <> ElsProfile.dump_path "https://api.elsevier.com/content/author/author_id/7004367822".
Proof. apply dump_path_distinct. discriminate. Defined.

(** *** Sequences of calls *)

Lemma read_docs_uri pt arg : preserves the_uri (ElsProfile.read_docs pt arg).
Proof. unfold ElsProfile.read_docs. preserves_steps. Qed.

Lemma set_coredata_uri k v : preserves the_uri (ElsAuthor.set_coredata k v).
Proof. unfold ElsAuthor.set_coredata. preserves_steps. Qed.

Lemma set_toplevel_uri k v : preserves the_uri (ElsAuthor.set_toplevel k v).
Proof. unfold ElsAuthor.set_toplevel. preserves_steps. Qed.

Lemma read_metrics_uri arg : preserves the_uri (ElsAuthor.read_metrics arg).
Proof.
  unfold ElsAuthor.read_metrics.
  pose proof set_coredata_uri. pose proof set_toplevel_uri.
  preserves_steps; auto.
Qed.

Lemma write_docs_uri : preserves the_uri ElsProfile.write_docs.
Proof. unfold ElsProfile.write_docs. preserves_steps. Qed.

Lemma run_op_uri k o : in_source o = true -> preserves the_uri (run_op k o).
Proof.
  destruct o as [c | c | c |]; destruct k; simpl; intros H;
    try discriminate H.
  - apply read_docs_uri.
  - apply read_docs_uri.
  - apply read_metrics_uri.
  - apply preserves_raise.
  - apply write_docs_uri.
  - apply write_docs_uri.
Qed.

(** X20: no sequence of [read_docs], [read_metrics] and [write_docs] calls,
    successful or not, changes the URI of the object. *)
Theorem uri_never_changes (k : kind) (ops : list op) (s : St) :
  forallb in_source ops = true ->
  uri (fst (snd (run_ops k ops s))) = uri (fst s).
Proof.
  revert s. induction ops as [| o r IH]; intros s H; [reflexivity |].
  cbn [forallb] in H. apply andb_true_iff in H as [Ho Hr].
  cbn [run_ops]. pose proof (run_op_uri k o Ho s) as H1.
  destruct (run_op k o s) as [res s1]. specialize (IH s1 Hr).
  destruct (run_ops k r s1) as [tr s2]. cbn [snd fst] in *.
  unfold the_uri in H1. cbn [snd] in H1. rewrite IH. exact H1.
Qed.

Lemma uri_never_changes_witness :
  uri (fst (snd (run_ops Author
                   [OpReadDocs (Some (answering search_answer));
                    OpReadMetrics (Some (answering metrics_answer));
                    OpWriteDocs;
                    OpReadDocs (Some (failing HTTPError));
                    OpReadMetrics None]
                   (author0, world0))))
  = author_uri.
Proof.
  apply (uri_never_changes Author _ (author0, world0)). reflexivity.
Defined.

(** The requests that one call adds to the log. *)
Lemma run_op_requests k o p w :
  in_source o = true ->
  exists l, requests (snd (snd (run_op k o (p, w)))) = requests w ++ l
            /\ length l <= 1.
Proof.
  intros Ho. destruct o as [c | c | c |]; [discriminate Ho | | |].
  - assert (E : forall pt,
               exists l,
                 requests (snd (snd (ElsProfile.read_docs pt c (p, w))))
                 = requests w ++ l /\ length l <= 1).
    { intros pt. destruct (available c p) as [cl |] eqn:Hav.
      - exists [ElsProfile.search_url (uri p)].
        split; [apply (read_docs_requests pt c p w cl Hav) | simpl; lia].
      - destruct c as [cl |]; [discriminate Hav |]. simpl in Hav.
        exists []. rewrite (read_docs_no_client pt p w Hav).
        split; [symmetry; apply app_nil_r | simpl; lia]. }
    destruct k; apply E.
  - destruct k.
    + destruct c as [cl |].
      * exists [metrics_url p]. split; [| simpl; lia].
        apply read_metrics_one_request_aux.
      * exists []. cbn [run_op].
        replace (ElsAuthor.read_metrics None (p, w))
          with (@Raise bool AttributeError, (p, w)).
        -- split; [symmetry; apply app_nil_r | simpl; lia].
        -- unfold ElsAuthor.read_metrics. run. destruct p; reflexivity.
    + exists []. split; [symmetry; apply app_nil_r | simpl; lia].
  - exists []. split; [| simpl; lia]. rewrite app_nil_r.
    destruct k; apply (write_docs_requests (p, w)).
Qed.

(** X21: over any sequence of [read_docs], [read_metrics] and [write_docs]
    calls the request log only grows, by at most one request per call. *)
Theorem at_most_one_request_per_call (k : kind) (ops : list op) (s : St) :
  forallb in_source ops = true ->
  exists l,
    requests (snd (snd (run_ops k ops s))) = requests (snd s) ++ l
    /\ length l <= length ops.
Proof.
  revert s. induction ops as [| o r IH]; intros s H.
  - exists []. split; [symmetry; apply app_nil_r | simpl; lia].
  - cbn [forallb] in H. apply andb_true_iff in H as [Ho Hr].
    destruct s as [p w]. cbn [run_ops].
    destruct (run_op_requests k o p w Ho) as (l1 & H1 & Hl1).
    destruct (run_op k o (p, w)) as [res s1]. cbn [snd] in H1.
    destruct (IH s1 Hr) as (l2 & H2 & Hl2).
    destruct (run_ops k r s1) as [tr s2]. cbn [snd] in *.
    exists (l1 ++ l2). split.
    + rewrite H2, H1, app_assoc. reflexivity.
    + rewrite length_app. simpl. lia.
Qed.

Lemma at_most_one_request_per_call_witness :
  exists l,
    requests (snd (snd (run_ops Author
                          [OpReadDocs None;
                           OpReadDocs (Some (answering search_answer));
                           OpWriteDocs;
                           OpReadMetrics (Some (failing HTTPError))]
                          (author0, world0)))) = [] ++ l
    /\ length l <= 4.
Proof.
  apply (at_most_one_request_per_call Author
           [OpReadDocs None; OpReadDocs (Some (answering search_answer));
            OpWriteDocs; OpReadMetrics (Some (failing HTTPError))]
           (author0, world0)).
  reflexivity.
Defined.



